(** * Document Summarizer: the browser client and the sentence-count rule

    A shallow embedding of the JavaScript front end of the Document
    Summarizer (theme-switcher.js, api.js, ui-controller.js, main.js and
    the controls declared in index.html), with the properties of its
    requests, validation, error handling and theme switching.

    Conventions of the model:
    - a JavaScript string is a [string]; each character is one code unit in
      the range U+0000..U+00FF, where [trim] and [toLowerCase] act on single
      code units;
    - a JavaScript number is [NaN] or an exact rational [Num q]; the rounding
      of binary floating point is not modelled;
    - [null] and [undefined] results are [None], a thrown exception is
      [Throw];
    - an asynchronous handler is run to completion: [await fetch] is a call
      to a network oracle; console output is not part of the model. *)

From Stdlib Require Import ZArith QArith Qround Qabs Qminmax String Ascii List Bool Lia Lqa DecimalString.
From stdpp Require Import base gmap strings list sorting.

Open Scope string_scope.
Open Scope Z_scope.

(** ** The parts of the JavaScript language the client uses *)

Module Js.

(** *** Strings *)

(** WhiteSpace and LineTerminator code units below U+0100: TAB, LF, VT, FF,
    CR, SP and NBSP. *)
Definition isWhiteSpace (c : ascii) : bool :=
  let n := N_of_ascii c in
  ((9 <=? n) && (n <=? 13) || (n =? 32) || (n =? 160))%N.

Fixpoint trimStart (s : string) : string :=
  match s with
  | String c r => if isWhiteSpace c then trimStart r else s
  | EmptyString => EmptyString
  end.

Fixpoint trimEnd (s : string) : string :=
  match s with
  | String c r =>
      match trimEnd r with
      | EmptyString => if isWhiteSpace c then EmptyString else String c EmptyString
      | r' => String c r'
      end
  | EmptyString => EmptyString
  end.

(** String.prototype.trim *)
Definition trim (s : string) : string := trimEnd (trimStart s).

(** Lower-case mapping of one code unit below U+0100: A-Z, and the
    letters U+00C0..U+00DE except the multiplication sign U+00D7. *)
Definition lowerChar (c : ascii) : ascii :=
  let n := N_of_ascii c in
  if ((65 <=? n) && (n <=? 90) || (192 <=? n) && (n <=? 222) && negb (n =? 215))%N
  then ascii_of_N (n + 32) else c.

(** String.prototype.toLowerCase *)
Fixpoint toLowerCase (s : string) : string :=
  match s with
  | String c r => String (lowerChar c) (toLowerCase r)
  | EmptyString => EmptyString
  end.

(** [s.lastIndexOf(c)] for a one-character search string [c]: the index of
    the last occurrence, -1 when there is none.  [lastIndexFrom i s c]
    numbers the characters of [s] from [i]. *)
Fixpoint lastIndexFrom (i : Z) (s : string) (c : ascii) : Z :=
  match s with
  | String a r =>
      let j := lastIndexFrom (i + 1) r c in
      if 0 <=? j then j else if Ascii.eqb a c then i else -1
  | EmptyString => -1
  end.

Definition lastIndexOf (s : string) (c : ascii) : Z := lastIndexFrom 0 s c.

Fixpoint drop (n : nat) (s : string) : string :=
  match n, s with
  | S n', String _ r => drop n' r
  | _, _ => s
  end.

(** [s.substring(start)]: a negative start counts as 0, a start beyond the
    end as the length. *)
Definition substring (s : string) (start : Z) : string :=
  drop (Z.to_nat (Z.max 0 start)) s.

(** Array.prototype.includes on an array of strings. *)
Definition includes (l : list string) (x : string) : bool :=
  existsb (String.eqb x) l.

(** *** Numbers *)

Inductive number : Type :=
  | NaN
  | Num (q : Q).

Definition numDiv (a : number) (d : Q) : number :=
  match a with
  | NaN => NaN
  | Num q => Num (q / d)%Q
  end.

(** Value of a digit or letter in radixes up to 36. *)
Definition digitValue (c : ascii) : option Z :=
  let n := Z.of_N (N_of_ascii c) in
  if (48 <=? n) && (n <=? 57) then Some (n - 48)
  else if (97 <=? n) && (n <=? 122) then Some (n - 87)
  else if (65 <=? n) && (n <=? 90) then Some (n - 55)
  else None.

(** The longest prefix of [s] made of digits of the radix, read as a
    number; [acc] is [None] until a digit is seen. *)
Fixpoint parseDigits (radix : Z) (acc : option Z) (s : string) : option Z :=
  match s with
  | String c r =>
      match digitValue c with
      | Some d =>
          if d <? radix
          then parseDigits radix (Some (default 0 acc * radix + d)) r
          else acc
      | None => acc
      end
  | EmptyString => acc
  end.

(** [parseInt(s)] with no radix argument: leading white space, an optional
    sign, an optional 0x prefix, then digits; [NaN] without a digit. *)
Definition parseInt (s : string) : number :=
  let s1 := trimStart s in
  let '(sign, s2) :=
    match s1 with
    | String "-" r => (-1, r)
    | String "+" r => (1, r)
    | _ => (1, s1)
    end in
  let '(radix, s3) :=
    match s2 with
    | String "0" (String "x" r) => (16, r)
    | String "0" (String "X" r) => (16, r)
    | _ => (10, s2)
    end in
  match parseDigits radix None s3 with
  | Some n => Num (inject_Z (sign * n))
  | None => NaN
  end.

(** Decimal digits of an integer, as in the string conversion of an
    integral number. *)
Definition decimal (z : Z) : string := NilZero.string_of_int (Z.to_int z).

Fixpoint zeros (n : nat) : string :=
  match n with
  | O => EmptyString
  | S n' => String "0" (zeros n')
  end.

Fixpoint take (n : nat) (s : string) : string :=
  match n, s with
  | S n', String c r => String c (take n' r)
  | _, _ => EmptyString
  end.

(** [x.toFixed(f)] below 10^21: the integer n nearest to x * 10^f, the
    larger one on a tie, written with f digits after the point. *)
Definition toFixed (x : Q) (f : nat) : string :=
  let sign := if Qle_bool 0 x then "" else "-" in
  let n := Qfloor (Qabs x * inject_Z (10 ^ Z.of_nat f) + (1 # 2))%Q in
  let m := decimal n in
  let m := zeros (S f - String.length m) ++ m in
  let k := String.length m in
  if Nat.eqb f 0 then sign ++ m
  else sign ++ take (k - f) m ++ "." ++ drop (k - f) m.

(** *** Values passed as arguments *)

Inductive value : Type :=
  | VUndefined
  | VNull
  | VBool (b : bool)
  | VNumber (n : number)
  | VString (s : string).

(** ToBoolean *)
Definition truthy (v : value) : bool :=
  match v with
  | VUndefined | VNull => false
  | VBool b => b
  | VNumber NaN => false
  | VNumber (Num q) => negb (Qeq_bool q 0)
  | VString s => negb (String.eqb s "")
  end.

(** A parameter with a default value: the default is taken when the
    argument is [undefined], which is also what an omitted argument is. *)
Definition orDefault (arg dflt : value) : value :=
  match arg with
  | VUndefined => dflt
  | _ => arg
  end.

(** *** JSON text, as its syntax tree *)

#[warnings="-register-all"]
Inductive json : Type :=
  | JNull
  | JBool (b : bool)
  | JNumber (q : Q)
  | JString (s : string)
  | JObject (members : list (string * json)).

(** JSON.stringify on a primitive: nothing for [undefined], [null] for
    [NaN]. *)
Definition stringifyValue (v : value) : option json :=
  match v with
  | VUndefined => None
  | VNull => Some JNull
  | VBool b => Some (JBool b)
  | VNumber NaN => Some JNull
  | VNumber (Num q) => Some (JNumber q)
  | VString s => Some (JString s)
  end.

(** JSON.stringify on an object literal: properties in order, those whose
    value is [undefined] left out. *)
Definition stringify (props : list (string * value)) : json :=
  JObject (omap (fun kv => pair kv.1 <$> stringifyValue kv.2) props).

(** *** Exceptions *)

Record Error : Type := { message : string }.

Inductive outcome (A : Type) : Type :=
  | Return (a : A)
  | Throw (e : Error).
Arguments Return {A} a.
Arguments Throw {A} e.

End Js.

(** ** HTTP exchanges with the summarization server *)

Module Http.
Import Js.

(** A File object: the properties the client reads. *)
Record File : Type := { name : string; size : N }.

(** Modelled from the spec: the server is not part of the front end; its
    answer to a summarization request is the record
    {summary, original_length, summary_length, compression_ratio,
    processing_time} of the data model, the two lengths being word
    counts. *)
Record SummaryResult : Type := {
  summary : string;
  original_length : Z;
  summary_length : Z;
  compression_ratio : Q;
  processing_time : Q
}.


(** An entry of a FormData object: a file, or a value that is sent as
    text. *)
Inductive FormValue : Type :=
  | FormFile (f : File)
  | FormText (v : value).

Inductive Body : Type :=
  | JsonBody (j : json)
  | FormBody (entries : list (string * FormValue)).

Record Request : Type := {
  url : string;
  method : string;
  headers : list (string * string);
  body : Body
}.

(** A response: its status and what [response.json()] resolves to (or
    rejects with). *)
Record Response : Type := {
  status : Z;
  jsonBody : outcome SummaryResult
}.

(** [response.ok]: the status is in the range 200-299. *)
Definition ok (r : Response) : bool := (200 <=? status r) && (status r <=? 299).

(** [fetch] rejects (network failure) or resolves to a response. *)
Inductive FetchOutcome : Type :=
  | Rejected (e : Error)
  | Responded (r : Response).

Definition Network : Type := Request -> FetchOutcome.

End Http.

(** ** Handlers as state transformers that may throw and that leave a
    trace of what the user and the network see *)

Module Eff.
Import Js Http.

Inductive Effect : Type :=
  | Alert (msg : string)
  | Fetch (req : Request).

Definition M (S A : Type) : Type := S -> outcome A * S * list Effect.

#[global] Instance M_ret {S} : MRet (M S) :=
  fun A a s => (Return a, s, []).

#[global] Instance M_bind {S} : MBind (M S) :=
  fun A B f m s =>
    match m s with
    | (Return a, s1, es1) => let '(r, s2, es2) := f a s1 in (r, s2, (es1 ++ es2)%list)
    | (Throw e, s1, es1) => (Throw e, s1, es1)
    end.

Definition throw {S A} (e : Error) : M S A := fun s => (Throw e, s, []).

(** try { body } catch (error) { handler error } *)
Definition tryCatch {S A} (body : M S A) (handler : Error -> M S A) : M S A :=
  fun s =>
    match body s with
    | (Throw e, s1, es1) => let '(r, s2, es2) := handler e s1 in (r, s2, (es1 ++ es2)%list)
    | r => r
    end.

Definition gets {S A} (f : S -> A) : M S A := fun s => (Return (f s), s, []).
Definition modify {S} (f : S -> S) : M S unit := fun s => (Return tt, f s, []).
Definition emit {S} (e : Effect) : M S unit := fun s => (Return tt, s, [e]).
Definition alert {S} (msg : string) : M S unit := emit (Alert msg).

(** [await fetch(...)]: the request is sent, the promise settles. *)
Definition fetch {S} (net : Network) (req : Request) : M S Response :=
  fun s =>
    match net req with
    | Rejected e => (Throw e, s, [Fetch req])
    | Responded r => (Return r, s, [Fetch req])
    end.

(** [await] on a promise that is already settled. *)
Definition await {S A} (o : outcome A) : M S A := fun s => (o, s, []).

Definition result {S A} (r : outcome A * S * list Effect) : outcome A := r.1.1.
Definition state {S A} (r : outcome A * S * list Effect) : S := r.1.2.
Definition effects {S A} (r : outcome A * S * list Effect) : list Effect := r.2.

(** The requests among the effects, in order. *)
Definition requests (es : list Effect) : list Request :=
  omap (fun e => match e with Fetch req => Some req | Alert _ => None end) es.


End Eff.

(** ** theme-switcher.js *)

Module ThemeSwitcher.
Import Js.

(** What the theme switcher reads and writes: the class lists of the html
    and body elements, the inline background colour of html, localStorage
    and the (prefers-color-scheme: dark) media query. *)
Record Document : Type := {
  html_classList : gset string;
  body_classList : gset string;
  html_backgroundColor : string;
  localStorage : gmap string string;
  prefersDark : bool
}.

Definition storageKey : string := "document-summarizer-theme".

(** classList.contains *)
Definition contains (classList : gset string) (token : string) : bool :=
  bool_decide (token ∈ classList).

(** localStorage.getItem, [None] being null *)
Definition getItem (d : Document) (key : string) : option string :=
  localStorage d !! key.

Definition setItem (key v : string) (d : Document) : Document :=
  {| html_classList := html_classList d;
     body_classList := body_classList d;
     html_backgroundColor := html_backgroundColor d;
     localStorage := <[key := v]> (localStorage d);
     prefersDark := prefersDark d |}.

Definition applyTheme (theme : string) (d : Document) : Document :=
  if String.eqb theme "dark" then
    {| html_classList := html_classList d ∪ {["dark"]};
       body_classList := body_classList d ∪ {["dark"]};
       html_backgroundColor := "#1a202c";
       localStorage := localStorage d;
       prefersDark := prefersDark d |}
  else
    {| html_classList := html_classList d ∖ {["dark"]};
       body_classList := body_classList d ∖ {["dark"]};
       html_backgroundColor := "";
       localStorage := localStorage d;
       prefersDark := prefersDark d |}.

Definition toggleTheme (d : Document) : Document :=
  let isDark := contains (html_classList d) "dark" in
  let d := applyTheme (if isDark then "light" else "dark") d in
  let currentTheme := if contains (html_classList d) "dark" then "dark" else "light" in
  setItem storageKey currentTheme d.

(** The saved theme counts when it is a non-empty string. *)
Definition savedTheme (d : Document) : option string :=
  match getItem d storageKey with
  | Some t => if String.eqb t "" then None else Some t
  | None => None
  end.

Definition loadThemePreference (d : Document) : Document :=
  match savedTheme d with
  | Some t => applyTheme t d
  | None => applyTheme (if prefersDark d then "dark" else "light") d
  end.

(** The constructor: [init] loads the preference, then installs the click
    and media-query listeners, which are the transitions [toggleTheme] and
    [systemThemeChanged] below. *)
Definition init (d : Document) : Document := loadThemePreference d.

(** The change listener of the media query, [matches] being [e.matches]. *)
Definition systemThemeChanged (matches : bool) (d : Document) : Document :=
  let d := {| html_classList := html_classList d;
              body_classList := body_classList d;
              html_backgroundColor := html_backgroundColor d;
              localStorage := localStorage d;
              prefersDark := matches |} in
  match savedTheme d with
  | Some _ => d
  | None => applyTheme (if matches then "dark" else "light") d
  end.

(** The theme shown: dark when html carries the class. *)
Definition currentTheme (d : Document) : string :=
  if contains (html_classList d) "dark" then "dark" else "light".

(** The states in which the switcher runs: after its constructor, and
    after any sequence of clicks and system theme changes. *)
Inductive reachable : Document -> Prop :=
  | reach_init d : reachable (init d)
  | reach_toggle d : reachable d -> reachable (toggleTheme d)
  | reach_system m d : reachable d -> reachable (systemThemeChanged m d).

End ThemeSwitcher.

(** ** api.js *)

Module ApiService.
Import Js Http Eff.

Definition baseUrl : string := "http://localhost:8000".

Definition summarizeText {S} (net : Network)
    (text modelType ratio language : value) : M S SummaryResult :=
  let modelType := orDefault modelType (VString "ensemble") in
  let ratio := orDefault ratio (VNumber (Num (3 # 10))) in
  let language := orDefault language (VString "english") in
  tryCatch
    (response ← fetch net
        {| url := baseUrl ++ "/summarize";
           method := "POST";
           headers := [("Content-Type", "application/json")];
           body := JsonBody (stringify [("text", text);
                                        ("model_type", modelType);
                                        ("ratio", ratio);
                                        ("language", language)]) |};
     if negb (ok response)
     then throw {| message := "API error: " ++ decimal (status response) |}
     else await (jsonBody response))
    (fun error => throw error).

Definition summarizeFile {S} (net : Network) (file : File)
    (modelType ratio language : value) : M S SummaryResult :=
  let modelType := orDefault modelType (VString "ensemble") in
  let ratio := orDefault ratio (VNumber (Num (3 # 10))) in
  let language := orDefault language (VString "english") in
  tryCatch
    (let formData := [("file", FormFile file);
                      ("model_type", FormText modelType);
                      ("ratio", FormText ratio);
                      ("language", FormText language)] in
     response ← fetch net
        {| url := baseUrl ++ "/summarize/file";
           method := "POST";
           headers := [];
           body := FormBody formData |};
     if negb (ok response)
     then throw {| message := "API error: " ++ decimal (status response) |}
     else await (jsonBody response))
    (fun error => throw error).

End ApiService.

(** ** ui-controller.js, with the controls of index.html *)

Module UIController.
Import Js Http Eff.

(** A select element: its options' values and the index of the selected
    one, -1 when none is. *)
Record Select : Type := { options : list string; selectedIndex : Z }.

(** [select.value]: the value of the selected option, else the empty
    string. *)
Definition selectValue (s : Select) : string :=
  if selectedIndex s <? 0 then ""
  else default "" (options s !! Z.to_nat (selectedIndex s)).

(** A range input with the default step 1: its bounds and its position. *)
Record Range : Type := { rangeMin : Z; rangeMax : Z; valueAsNumber : Z }.

(** [range.value]: the position in decimal digits. *)
Definition rangeValue (r : Range) : string := decimal (valueAsNumber r).

(** The two tab panes, by their class lists. *)
Record Panes : Type := { textInput : gset string; fileInput : gset string }.

(** The file that was accepted, and the line that shows it. *)
Record Upload : Type := {
  uploadedFile : option File;
  fileName : string;
  fileInfo : gset string
}.

Record Controls : Type := {
  modelType : Select;
  summaryRatio : Range;
  ratioValue : string;
  language : Select
}.

(** The results section: its class list and the text of its fields. *)
Record Results : Type := {
  resultsSection : gset string;
  summaryText : string;
  originalLength : string;
  summaryLength : string;
  compressionRatio : string;
  processingTime : string
}.

(** The state of the page: [this.elements] of the controller, grouped, and
    [this.uploadedFile].  The styling of the two tab buttons is left
    out. *)
Record Page : Type := {
  panes : Panes;
  inputText : string;
  upload : Upload;
  controls : Controls;
  results : Results;
  loadingIndicator : gset string
}.

Definition set_panes (x : Panes) (p : Page) : Page :=
  {| panes := x; inputText := inputText p; upload := upload p;
     controls := controls p; results := results p;
     loadingIndicator := loadingIndicator p |}.

Definition set_inputText (x : string) (p : Page) : Page :=
  {| panes := panes p; inputText := x; upload := upload p;
     controls := controls p; results := results p;
     loadingIndicator := loadingIndicator p |}.

Definition set_upload (x : Upload) (p : Page) : Page :=
  {| panes := panes p; inputText := inputText p; upload := x;
     controls := controls p; results := results p;
     loadingIndicator := loadingIndicator p |}.

Definition set_controls (x : Controls) (p : Page) : Page :=
  {| panes := panes p; inputText := inputText p; upload := upload p;
     controls := x; results := results p;
     loadingIndicator := loadingIndicator p |}.

Definition set_results (x : Results) (p : Page) : Page :=
  {| panes := panes p; inputText := inputText p; upload := upload p;
     controls := controls p; results := x;
     loadingIndicator := loadingIndicator p |}.

Definition set_loadingIndicator (x : gset string) (p : Page) : Page :=
  {| panes := panes p; inputText := inputText p; upload := upload p;
     controls := controls p; results := results p;
     loadingIndicator := x |}.

Definition contains (classList : gset string) (token : string) : bool :=
  bool_decide (token ∈ classList).

(** One pane under [switchTab tabId]. *)
Definition showPane (id tabId : string) (classList : gset string) : gset string :=
  if String.eqb id tabId
  then (classList ∖ {["hidden"]}) ∪ {["active"]}
  else (classList ∪ {["hidden"]}) ∖ {["active"]}.

Definition switchTab (tabId : string) : M Page unit :=
  modify (fun p =>
    set_panes {| textInput := showPane "text-input" tabId (textInput (panes p));
                 fileInput := showPane "file-input" tabId (fileInput (panes p)) |} p).

(** The input listener of the slider. *)
Definition ratioInput : M Page unit :=
  modify (fun p =>
    let c := controls p in
    set_controls {| modelType := modelType c;
                    summaryRatio := summaryRatio c;
                    ratioValue := rangeValue (summaryRatio c) ++ "%";
                    language := language c |} p).

Definition maxSize : N := 10 * 1024 * 1024.

Definition validTypes : list string := [".txt"; ".pdf"; ".docx"; ".html"; ".md"].

Definition handleFileSelection (file : File) : M Page unit :=
  if (maxSize <? size file)%N then
    alert "File is too large. Maximum size is 10MB."
  else
    let fileExt := substring (name file) (lastIndexOf (name file) ".") in
    if negb (includes validTypes (toLowerCase fileExt)) then
      alert "Invalid file type. Please upload a TXT, PDF, DOCX, HTML, or MD file."
    else
      modify (fun p =>
        set_upload {| uploadedFile := Some file;
                      fileName := name file;
                      fileInfo := fileInfo (upload p) ∖ {["hidden"]} |} p).

(** The click listener of the remove-file button. *)
Definition removeFile : M Page unit :=
  modify (fun p =>
    set_upload {| uploadedFile := None;
                  fileName := fileName (upload p);
                  fileInfo := fileInfo (upload p) ∪ {["hidden"]} |} p).

Definition getInputText : M Page (option string) :=
  p ← gets id;
  if negb (contains (textInput (panes p)) "hidden")
  then mret (Some (trim (inputText p)))
  else mret None.

Definition getUploadedFile : M Page (option File) :=
  p ← gets id;
  if negb (contains (fileInput (panes p)) "hidden")
  then mret (uploadedFile (upload p))
  else mret None.

Module Options.
Record t : Type := { modelType : string; ratio : number; language : string }.
End Options.

Definition getSummarizationOptions : M Page Options.t :=
  p ← gets id;
  mret {| Options.modelType := selectValue (modelType (controls p));
          Options.ratio := numDiv (parseInt (rangeValue (summaryRatio (controls p)))) 100;
          Options.language := selectValue (language (controls p)) |}.

(** A string or null, as a value. *)
Definition textValue (text : option string) : value :=
  match text with
  | Some s => VString s
  | None => VNull
  end.

Definition validateInput : M Page bool :=
  text ← getInputText;
  file ← getUploadedFile;
  if negb (truthy (textValue text)) && negb (bool_decide (is_Some file)) then
    alert "Please enter text or upload a file to summarize." ;;
    mret false
  else mret true.

Definition showLoading : M Page unit :=
  modify (fun p => set_loadingIndicator (loadingIndicator p ∖ {["hidden"]}) p).

Definition hideLoading : M Page unit :=
  modify (fun p => set_loadingIndicator (loadingIndicator p ∪ {["hidden"]}) p).

Definition displayResults (result : SummaryResult) : M Page unit :=
  modify (fun p =>
    set_results
      {| summaryText := summary result;
         originalLength := decimal (original_length result) ++ " words";
         summaryLength := decimal (summary_length result) ++ " words";
         compressionRatio := toFixed (compression_ratio result * 100)%Q 1 ++ "%";
         processingTime := toFixed (processing_time result) 2 ++ "s";
         resultsSection := (resultsSection (results p) ∖ {["hidden"]}) ∪ {["fade-in"]} |} p).

Definition showError (msg : string) : M Page unit :=
  hideLoading ;;
  alert ("Error: " ++ msg).

(** The page as index.html declares it and the constructor leaves it. *)
Definition initialPage : Page :=
  {| panes := {| textInput := {["tab-pane"; "active"]};
                 fileInput := {["tab-pane"; "hidden"]} |};
     inputText := "";
     upload := {| uploadedFile := None;
                  fileName := "";
                  fileInfo := {["mt-2"; "text-sm"; "text-gray-500";
                                "dark:text-gray-400"; "hidden"]} |};
     controls := {| modelType := {| options := ["ensemble"; "textrank"; "tfidf"];
                                    selectedIndex := 0 |};
                    summaryRatio := {| rangeMin := 10; rangeMax := 50;
                                       valueAsNumber := 30 |};
                    ratioValue := "30%";
                    language := {| options := ["english"; "spanish"; "french";
                                               "german"; "italian"];
                                   selectedIndex := 0 |} |};
     results := {| resultsSection := {["bg-white"; "dark:bg-gray-800"; "rounded-lg";
                                       "shadow-md"; "p-6"; "transition-colors";
                                       "duration-200"; "ease-in-out"; "hidden"]};
                   summaryText := ""; originalLength := ""; summaryLength := "";
                   compressionRatio := ""; processingTime := "" |};
     loadingIndicator := {["fixed"; "inset-0"; "bg-black"; "bg-opacity-50"; "flex";
                           "items-center"; "justify-center"; "z-50"; "hidden"]} |}.

End UIController.

(** ** main.js *)

Module App.
Import Js Http Eff UIController.

Definition handleSummarize (net : Network) : M Page unit :=
  valid ← validateInput;
  if negb valid then mret tt
  else
    showLoading ;;
    tryCatch
      (options ← getSummarizationOptions;
       text ← getInputText;
       file ← getUploadedFile;
       result ←
         (if truthy (textValue text) then
            r ← ApiService.summarizeText net
                  (textValue text)
                  (VString (Options.modelType options))
                  (VNumber (Options.ratio options))
                  (VString (Options.language options));
            mret (Some r)
          else
            match file with
            | Some f =>
                r ← ApiService.summarizeFile net
                      f
                      (VString (Options.modelType options))
                      (VNumber (Options.ratio options))
                      (VString (Options.language options));
                mret (Some r)
            | None => mret None
            end);
       hideLoading ;;
       match result with
       | Some r => displayResults r
       | None => mret tt
       end)
      (fun error =>
         hideLoading ;;
         showError (message error)).

(** *** What the user can do on the page *)

Inductive Tab : Type := TextTab | FileTab.

Definition tabId (t : Tab) : string :=
  match t with
  | TextTab => "text-input"
  | FileTab => "file-input"
  end.

(** The user's actions.  A select can only be set to one of its options
    and the slider only to a position between its bounds; the click on
    the button comes with the way the network answers it. *)
Inductive Event : Type :=
  | TypeText (s : string)
  | PickModel (i : nat)
  | PickLanguage (i : nat)
  | MoveSlider (v : Z)
  | ClickTab (t : Tab)
  | ChooseFile (f : File)
  | ClickRemoveFile
  | ClickSummarize (net : Network).

Definition pick (i : nat) (s : Select) : Select :=
  if bool_decide (i < length (options s))%nat
  then {| options := options s; selectedIndex := Z.of_nat i |}
  else s.

Definition slide (v : Z) (r : Range) : Range :=
  {| rangeMin := rangeMin r; rangeMax := rangeMax r;
     valueAsNumber := Z.max (rangeMin r) (Z.min v (rangeMax r)) |}.

Definition handle (ev : Event) : M Page unit :=
  match ev with
  | TypeText s => modify (set_inputText s)
  | PickModel i =>
      modify (fun p =>
        let c := controls p in
        set_controls {| modelType := pick i (modelType c);
                        summaryRatio := summaryRatio c;
                        ratioValue := ratioValue c;
                        language := language c |} p)
  | PickLanguage i =>
      modify (fun p =>
        let c := controls p in
        set_controls {| modelType := modelType c;
                        summaryRatio := summaryRatio c;
                        ratioValue := ratioValue c;
                        language := pick i (language c) |} p)
  | MoveSlider v =>
      modify (fun p =>
        let c := controls p in
        set_controls {| modelType := modelType c;
                        summaryRatio := slide v (summaryRatio c);
                        ratioValue := ratioValue c;
                        language := language c |} p) ;;
      ratioInput
  | ClickTab t => switchTab (tabId t)
  | ChooseFile f => handleFileSelection f
  | ClickRemoveFile => removeFile
  | ClickSummarize net => handleSummarize net
  end.

(** A session: the events handled one after the other.  A handler that
    lets an exception escape does not stop the page. *)
Fixpoint run (evs : list Event) : M Page unit :=
  match evs with
  | [] => mret tt
  | ev :: rest => tryCatch (handle ev) (fun _ => mret tt) ;; run rest
  end.

(** The controls are in a state the browser allows. *)
Definition selectOk (s : Select) : Prop :=
  0 <= selectedIndex s < Z.of_nat (length (options s)).

Definition rangeOk (r : Range) : Prop :=
  rangeMin r <= valueAsNumber r <= rangeMax r.

(** The controls are those of index.html. *)
Record controlsOk (c : Controls) : Prop := {
  model_options : options (modelType c) = ["ensemble"; "textrank"; "tfidf"];
  model_selected : selectOk (modelType c);
  language_options :
    options (language c) = ["english"; "spanish"; "french"; "german"; "italian"];
  language_selected : selectOk (language c);
  ratio_min : rangeMin (summaryRatio c) = 10;
  ratio_max : rangeMax (summaryRatio c) = 50;
  ratio_position : rangeOk (summaryRatio c)
}.

End App.

(** ** The sentence-count rule of the summarizer *)

Module Selector.

(** How a number half-way between two integers is rounded. *)
Inductive TieRule : Type := HalfUp | HalfEven.

(** The integer nearest to [x]. *)
Definition round (t : TieRule) (x : Q) : Z :=
  let f := Qfloor x in
  match (x - inject_Z f ?= 1 # 2)%Q with
  | Lt => f
  | Gt => f + 1
  | Eq => match t with
          | HalfUp => f + 1
          | HalfEven => if Z.even f then f else f + 1
          end
  end.

Definition ratioMin : Q := 10 # 100.
Definition ratioMax : Q := 50 # 100.

Definition validRatio (r : Q) : Prop := (ratioMin <= r)%Q /\ (r <= ratioMax)%Q.

Definition clampRatio (r : Q) : Q := Qmax ratioMin (Qmin r ratioMax).

(** Modelled from the spec: the Sentence Selector of the server is not in
    the front end.  The target count is k = max(1, round(ratio * n)) for
    n sentences and the clamped ratio; for n = 1 it is forced to 1. *)
Definition targetCount (t : TieRule) (ratio : Q) (n : nat) : Z :=
  if Nat.eqb n 1 then 1
  else Z.max 1 (round t (clampRatio ratio * inject_Z (Z.of_nat n))).

(** Modelled from the spec: selection takes the top k indices of the
    ranked list and puts them back in ascending order; the summary is
    made of the sentences at those indices. *)
Definition selectIndices (k : Z) (ranked : list nat) : list nat :=
  merge_sort Nat.le (take (Z.to_nat k) ranked).

Definition selectSentences (t : TieRule) (ratio : Q)
    (sentences : list string) (ranked : list nat) : list string :=
  omap (fun i => sentences !! i)
       (selectIndices (targetCount t ratio (length sentences)) ranked).

End Selector.

(** ** Observations on pages and requests, used to state the properties *)

Module Observe.
Import Js Http Eff UIController App.

(** What [getInputText] and [getUploadedFile] return on a page. *)
Definition activeText (p : Page) : option string :=
  if contains (textInput (panes p)) "hidden" then None
  else Some (trim (inputText p)).

Definition activeFile (p : Page) : option File :=
  if contains (fileInput (panes p)) "hidden" then None
  else uploadedFile (upload p).

Definition optionsOf (p : Page) : Options.t :=
  {| Options.modelType := selectValue (modelType (controls p));
     Options.ratio := numDiv (parseInt (rangeValue (summaryRatio (controls p)))) 100;
     Options.language := selectValue (language (controls p)) |}.

(** The request to /summarize with the four values as they are. *)
Definition jsonRequest (text modelType ratio language : value) : Request :=
  {| url := "http://localhost:8000/summarize";
     method := "POST";
     headers := [("Content-Type", "application/json")];
     body := JsonBody (stringify [("text", text);
                                  ("model_type", modelType);
                                  ("ratio", ratio);
                                  ("language", language)]) |}.

(** The request to /summarize/file with the file and the three values as
    they are. *)
Definition formRequest (f : File) (modelType ratio language : value) : Request :=
  {| url := "http://localhost:8000/summarize/file";
     method := "POST";
     headers := [];
     body := FormBody [("file", FormFile f);
                       ("model_type", FormText modelType);
                       ("ratio", FormText ratio);
                       ("language", FormText language)] |}.

(** The requests of [handleSummarize] for a text, or a file, and the
    options of the form. *)
Definition textRequest (text : string) (o : Options.t) : Request :=
  jsonRequest (VString text) (VString (Options.modelType o))
    (VNumber (Options.ratio o)) (VString (Options.language o)).

Definition fileRequest (f : File) (o : Options.t) : Request :=
  formRequest f (VString (Options.modelType o))
    (VNumber (Options.ratio o)) (VString (Options.language o)).

(** The request a click on the button leads to, if any. *)
Definition requestOf (p : Page) : option Request :=
  match activeText p with
  | Some (String c s) => Some (textRequest (String c s) (optionsOf p))
  | _ => match activeFile p with
         | Some f => Some (fileRequest f (optionsOf p))
         | None => None
         end
  end.

(** How a call of the API service on [req] ends. *)
Definition settled (net : Network) (req : Request) : outcome SummaryResult :=
  match net req with
  | Rejected e => Throw e
  | Responded r =>
      if ok r then jsonBody r
      else Throw {| message := "API error: " ++ decimal (status r) |}
  end.

Definition loading (p : Page) : Page := state (showLoading p).
Definition loaded (p : Page) : Page := state (hideLoading p).
Definition shown (r : SummaryResult) (p : Page) : Page := state (displayResults r p).

(** The first entry under a key. *)
Fixpoint assoc {A} (key : string) (l : list (string * A)) : option A :=
  match l with
  | (k, a) :: rest => if String.eqb k key then Some a else assoc key rest
  | [] => None
  end.

(** The names of the members of a JSON object, in order. *)
Definition fields (j : json) : list string :=
  match j with
  | JObject members => members.*1
  | _ => []
  end.


(** The file a request carries. *)
Definition fileSent (req : Request) : option File :=
  match body req with
  | FormBody entries =>
      match assoc "file" entries with
      | Some (FormFile f) => Some f
      | _ => None
      end
  | _ => None
  end.

(** The position of the slider. *)
Definition position (p : Page) : Z := valueAsNumber (summaryRatio (controls p)).

(** A file selection is accepted when the file becomes the uploaded file
    and the user gets no alert. *)
Definition accepted (f : File) (p : Page) : Prop :=
  uploadedFile (upload (state (handleFileSelection f p))) = Some f /\
  effects (handleFileSelection f p) = [].

Fixpoint hasChar (c : ascii) (s : string) : bool :=
  match s with
  | String a r => Ascii.eqb a c || hasChar c r
  | EmptyString => false
  end.

(** [ext] is the final extension of [name]: the last dot of the name and
    what follows it. *)
Definition finalExtension (name ext : string) : Prop :=
  exists stem e, name = stem ++ String "." e /\ ext = String "." e /\ hasChar "." e = false.

(** Equality of two strings up to the case of their letters. *)
Fixpoint equalIgnoringCase (a b : string) : bool :=
  match a, b with
  | EmptyString, EmptyString => true
  | String x a', String y b' =>
      Ascii.eqb (lowerChar x) (lowerChar y) && equalIgnoringCase a' b'
  | _, _ => false
  end.

(** The name has one of the five extensions, whatever the case. *)
Definition acceptedType (name : string) : Prop :=
  exists ext t, finalExtension name ext /\ In t validTypes /\
                equalIgnoringCase ext t = true.

(** An argument that is absent is [undefined]; the value a parameter with
    a default takes. *)
Definition absent (arg : value) : bool :=
  match arg with
  | VUndefined => true
  | _ => false
  end.

Definition effective (arg dflt : value) : value :=
  if absent arg then dflt else arg.

(** A page whose uploaded file, if any, passed both checks. *)
Definition uploadOk (p : Page) : Prop :=
  forall f, uploadedFile (upload p) = Some f ->
    (size f <= maxSize)%N /\
    includes validTypes
      (toLowerCase (substring (name f) (lastIndexOf (name f) "."))) = true.

(** The invariant of a session. *)
Definition pageOk (p : Page) : Prop := controlsOk (controls p) /\ uploadOk p.

Definition modelTypes : list string := ["ensemble"; "textrank"; "tfidf"].

Definition languages : list string :=
  ["english"; "spanish"; "french"; "german"; "italian"].

(** A string with nothing but white space in it. *)
Fixpoint blank (s : string) : bool :=
  match s with
  | String c r => isWhiteSpace c && blank r
  | EmptyString => true
  end.

(** *** Sample inputs *)

Definition sampleText : string :=
  "Sentence one is here. Sentence two follows. Sentence three ends it.".

Definition samplePage : Page := set_inputText sampleText initialPage.

Definition blankPage : Page := set_inputText "   " initialPage.

Definition sampleResult : SummaryResult :=
  {| summary := "Sentence one is here.";
     original_length := 11;
     summary_length := 4;
     compression_ratio := 4 # 11;
     processing_time := 1 # 100 |}.

Definition sampleNetwork : Network :=
  fun _ => Responded {| status := 200; jsonBody := Return sampleResult |}.

Definition failingNetwork : Network :=
  fun _ => Responded {| status := 500; jsonBody := Throw {| message := "" |} |}.

Definition bigTextFile : File := {| name := "notes.txt"; size := 10485761 |}.

Definition smallFile : File := {| name := "Report.2024.PDF"; size := 2048 |}.

End Observe.

(** The theme is applied: html and body agree on the dark class, and the
    background colour goes with it. *)
Definition themed (d : ThemeSwitcher.Document) : Prop :=
  ("dark" ∈ ThemeSwitcher.body_classList d <-> "dark" ∈ ThemeSwitcher.html_classList d) /\
  ThemeSwitcher.html_backgroundColor d =
    (if ThemeSwitcher.contains (ThemeSwitcher.html_classList d) "dark"
     then "#1a202c" else "").

(** A document before the switcher runs, for examples. *)
Definition sampleDocument : ThemeSwitcher.Document :=
  {| ThemeSwitcher.html_classList := {["dark"]};
     ThemeSwitcher.body_classList := {["bg-gray-100"; "transition-colors"]};
     ThemeSwitcher.html_backgroundColor := "";
     ThemeSwitcher.localStorage := ∅;
     ThemeSwitcher.prefersDark := true |}.

(** ** The inline script of index.html *)

(** The script in the head of the page, run before the body is parsed or,
    were it moved, after: [bodyParsed] tells whether document.body is
    there.  Without a body the access to document.body.classList throws
    once html is done; the flag returned tells whether the script ran to
    its end. *)
Module HeadScript.
Import ThemeSwitcher.

(** The condition of the script. *)
Definition wantsDark (d : Document) : bool :=
  match getItem d storageKey with
  | Some t => String.eqb t "dark" || (String.eqb t "" && prefersDark d)
  | None => prefersDark d
  end.

Definition run (bodyParsed : bool) (d : Document) : bool * Document :=
  let html := if wantsDark d then html_classList d ∪ {["dark"]}
              else html_classList d ∖ {["dark"]} in
  if bodyParsed then
    (true,
     {| html_classList := html;
        body_classList := if wantsDark d then body_classList d ∪ {["dark"]}
                          else body_classList d ∖ {["dark"]};
        html_backgroundColor := html_backgroundColor d;
        localStorage := localStorage d;
        prefersDark := prefersDark d |})
  else
    (false,
     {| html_classList := html;
        body_classList := body_classList d;
        html_backgroundColor := html_backgroundColor d;
        localStorage := localStorage d;
        prefersDark := prefersDark d |}).
End HeadScript.


Module ThemeObserve.
Import ThemeSwitcher.

(** The document with the media query answering [m]. *)
Definition withPreference (m : bool) (d : Document) : Document :=
  {| html_classList := html_classList d;
     body_classList := body_classList d;
     html_backgroundColor := html_backgroundColor d;
     localStorage := localStorage d;
     prefersDark := m |}.

End ThemeObserve.

(** ** Further observations on sessions *)

Module Session.
Import Js Http Eff UIController App.

(** The number of clicks on the button among the events. *)
Fixpoint clicks (evs : list Event) : nat :=
  match evs with
  | ClickSummarize _ :: rest => S (clicks rest)
  | _ :: rest => clicks rest
  | [] => O
  end.

(** The tab whose pane is shown. *)
Definition onTextTab (p : Page) : bool := negb (contains (textInput (panes p)) "hidden").
Definition onFileTab (p : Page) : bool := negb (contains (fileInput (panes p)) "hidden").

Definition loadingHidden (p : Page) : bool := contains (loadingIndicator p) "hidden".

(** What the download button saves. *)
Record Download : Type := { download : string; type : string; content : string }.

(** The click listener of the download button: [None] when it does
    nothing. *)
Definition downloadSummary (p : Page) : option Download :=
  let summaryText := summaryText (results p) in
  if truthy (VString summaryText)
  then Some {| download := "summary.txt"; type := "text/plain"; content := summaryText |}
  else None.


Definition firstChar (s : string) : option ascii :=
  match s with
  | String c _ => Some c
  | EmptyString => None
  end.
End Session.

(** *** Digits *)

Module Digits.
(** A decimal digit. *)
Definition isDigit (c : ascii) : bool :=
  let n := N_of_ascii c in ((48 <=? n) && (n <=? 57))%N.

(** A string made of decimal digits. *)
Fixpoint allDigits (s : string) : bool :=
  match s with
  | String c r => isDigit c && allDigits r
  | EmptyString => true
  end.

End Digits.


(** *** The tab buttons *)

Module Tabs.
Import UIController.

(** A tab button: its data-tab attribute, class list and aria-selected
    attribute. *)
Record TabButton : Type := {
  dataTab : string;
  classList : gset string;
  ariaSelected : string
}.

Definition activeStyle : gset string :=
  {["text-blue-600"; "dark:text-blue-400"; "border-blue-600"; "dark:border-blue-400"]}.

Definition idleStyle : gset string :=
  {["text-gray-500"; "dark:text-gray-400"; "border-transparent"]}.

(** One button under [switchTab tabId]. *)
Definition styleTab (tabId : string) (tab : TabButton) : TabButton :=
  if String.eqb (dataTab tab) tabId then
    {| dataTab := dataTab tab;
       classList := (classList tab ∪ activeStyle) ∖ idleStyle;
       ariaSelected := "true" |}
  else
    {| dataTab := dataTab tab;
       classList := (classList tab ∖ activeStyle) ∪ idleStyle;
       ariaSelected := "false" |}.

(** [switchTab] on the buttons of #input-tabs and on the page. *)
Definition switchTab (tabId : string) (tabs : list TabButton) (p : Page) :
    list TabButton * Page :=
  (styleTab tabId <$> tabs, Eff.state (UIController.switchTab tabId p)).

(** Whether the pane with the given id is shown. *)
Definition paneShown (id : string) (p : Page) : bool :=
  if String.eqb id "text-input" then negb (contains (textInput (panes p)) "hidden")
  else if String.eqb id "file-input" then negb (contains (fileInput (panes p)) "hidden")
  else false.

(** The two buttons as index.html declares them. *)
Definition textTabButton : TabButton :=
  {| dataTab := "text-input";
     classList := {["inline-block"; "py-2"; "px-4"; "text-blue-600";
                    "hover:text-blue-800"; "dark:text-blue-400";
                    "dark:hover:text-blue-200"; "font-medium"; "border-b-2";
                    "border-blue-600"; "dark:border-blue-400"; "rounded-t-lg";
                    "active"]};
     ariaSelected := "true" |}.

Definition fileTabButton : TabButton :=
  {| dataTab := "file-input";
     classList := {["inline-block"; "py-2"; "px-4"; "text-gray-500";
                    "hover:text-gray-700"; "dark:text-gray-300";
                    "dark:hover:text-gray-100"; "font-medium"; "border-b-2";
                    "border-transparent"; "rounded-t-lg"]};
     ariaSelected := "false" |}.

Definition initialTabs : list TabButton := [textTabButton; fileTabButton].

End Tabs.

(** *** More sample inputs *)

Definition reloadedDocument : ThemeSwitcher.Document :=
  {| ThemeSwitcher.html_classList := ∅;
     ThemeSwitcher.body_classList := {["bg-gray-100"; "transition-colors"]};
     ThemeSwitcher.html_backgroundColor := "";
     ThemeSwitcher.localStorage :=
       ThemeSwitcher.localStorage (ThemeSwitcher.toggleTheme sampleDocument);
     ThemeSwitcher.prefersDark := true |}.

Definition sampleSentences : list string :=
  ["Sentence a."; "Sentence b."; "Sentence c."; "Sentence d."; "Sentence e."].

(** A ranking of the five sample sentences, best first. *)
Definition sampleRanking : list nat := [3; 0; 4; 1; 2]%nat.

Definition offlineNetwork : Http.Network :=
  fun _ => Http.Rejected {| Js.message := "Failed to fetch" |}.

Set Warnings "-clear-no-such-hyp".

(** * Properties *)

(** ** Theme switching *)

Section Theme.
Import ThemeSwitcher.

Lemma contains_true (cl : gset string) t : contains cl t = true <-> t ∈ cl.
Proof. unfold contains. apply bool_decide_eq_true. Qed.

Lemma contains_false (cl : gset string) t : contains cl t = false <-> t ∉ cl.
Proof. unfold contains. apply bool_decide_eq_false. Qed.

Lemma applyTheme_dark d :
  applyTheme "dark" d =
    {| html_classList := html_classList d ∪ {["dark"]};
       body_classList := body_classList d ∪ {["dark"]};
       html_backgroundColor := "#1a202c";
       localStorage := localStorage d;
       prefersDark := prefersDark d |}.
Proof. reflexivity. Qed.

Lemma applyTheme_other t d :
  t <> "dark" ->
  applyTheme t d =
    {| html_classList := html_classList d ∖ {["dark"]};
       body_classList := body_classList d ∖ {["dark"]};
       html_backgroundColor := "";
       localStorage := localStorage d;
       prefersDark := prefersDark d |}.
Proof.
  intros Ht. unfold applyTheme.
  destruct (String.eqb_spec t "dark"); [contradiction | reflexivity].
Qed.

Lemma applyTheme_themed t d : themed (applyTheme t d).
Proof.
  destruct (decide (t = "dark")) as [-> | Hne].
  - rewrite applyTheme_dark. split; simpl.
    + set_solver.
    + replace (contains _ _) with true; [done |].
      symmetry. apply contains_true. set_solver.
  - rewrite applyTheme_other by done. split; simpl.
    + set_solver.
    + replace (contains _ _) with false; [done |].
      symmetry. apply contains_false. set_solver.
Qed.

(** Every state the switcher runs in has a theme applied. *)
Lemma reachable_themed d : reachable d -> themed d.
Proof.
  induction 1 as [d | d _ _ | m d _ IH].
  - unfold init, loadThemePreference. destruct (savedTheme d); apply applyTheme_themed.
  - unfold toggleTheme. apply (applyTheme_themed _ d).
  - unfold systemThemeChanged.
    match goal with |- themed (match ?x with _ => _ end) => destruct x end.
    + exact IH.
    + apply applyTheme_themed.
Qed.

Lemma toggleTheme_dark d :
  "dark" ∈ html_classList d ->
  toggleTheme d = setItem storageKey "light" (applyTheme "light" d).
Proof.
  intros H. unfold toggleTheme.
  apply contains_true in H as ->.
  rewrite applyTheme_other by done. simpl.
  replace (contains _ _) with false; [done |].
  symmetry. apply contains_false. set_solver.
Qed.

Lemma toggleTheme_light d :
  "dark" ∉ html_classList d ->
  toggleTheme d = setItem storageKey "dark" (applyTheme "dark" d).
Proof.
  intros H. unfold toggleTheme.
  apply contains_false in H as ->.
  rewrite applyTheme_dark. simpl.
  replace (contains _ _) with true; [done |].
  symmetry. apply contains_true. set_solver.
Qed.



Lemma toggleTheme_saved d :
  getItem (toggleTheme d) storageKey = Some (currentTheme (toggleTheme d)).
Proof.
  unfold toggleTheme, getItem, currentTheme. simpl.
  apply lookup_insert_eq.
Qed.




End Theme.

(** ** The client: requests, validation, errors, files and results *)

Section Client.
Import Js Http Eff UIController App Observe.

Lemma getInputText_run p : getInputText p = (Return (activeText p), p, []).
Proof.
  unfold getInputText, activeText. cbv [mbind M_bind gets id].
  destruct (contains _ _); reflexivity.
Qed.

Lemma getUploadedFile_run p : getUploadedFile p = (Return (activeFile p), p, []).
Proof.
  unfold getUploadedFile, activeFile. cbv [mbind M_bind gets id].
  destruct (contains _ _); reflexivity.
Qed.

Lemma getSummarizationOptions_run p :
  getSummarizationOptions p = (Return (optionsOf p), p, []).
Proof. reflexivity. Qed.

Lemma summarizeText_call {S} net text m r l (s : S) :
  let req := jsonRequest text (orDefault m (VString "ensemble"))
               (orDefault r (VNumber (Num (3 # 10)))) (orDefault l (VString "english")) in
  ApiService.summarizeText net text m r l s = (settled net req, s, [Fetch req]).
Proof.
  unfold ApiService.summarizeText, settled, jsonRequest, tryCatch, fetch. simpl.
  cbv [mbind M_bind].
  destruct (net _) as [e | resp]; [reflexivity |].
  destruct (ok resp); simpl; [destruct (jsonBody resp) |]; reflexivity.
Qed.

Lemma summarizeFile_call {S} net f m r l (s : S) :
  let req := formRequest f (orDefault m (VString "ensemble"))
               (orDefault r (VNumber (Num (3 # 10)))) (orDefault l (VString "english")) in
  ApiService.summarizeFile net f m r l s = (settled net req, s, [Fetch req]).
Proof.
  unfold ApiService.summarizeFile, settled, formRequest, tryCatch, fetch. simpl.
  cbv [mbind M_bind].
  destruct (net _) as [e | resp]; [reflexivity |].
  destruct (ok resp); simpl; [destruct (jsonBody resp) |]; reflexivity.
Qed.

Lemma summarizeText_run {S} net text m r l (s : S) :
  let req := textRequest text {| Options.modelType := m; Options.ratio := r;
                                 Options.language := l |} in
  ApiService.summarizeText net (VString text) (VString m) (VNumber r) (VString l) s =
  (settled net req, s, [Fetch req]).
Proof. apply summarizeText_call. Qed.

Lemma summarizeFile_run {S} net f m r l (s : S) :
  let req := fileRequest f {| Options.modelType := m; Options.ratio := r;
                              Options.language := l |} in
  ApiService.summarizeFile net f (VString m) (VNumber r) (VString l) s =
  (settled net req, s, [Fetch req]).
Proof. apply summarizeFile_call. Qed.

Ltac run_handlers :=
  cbv [handleSummarize validateInput getInputText getUploadedFile
       getSummarizationOptions showLoading hideLoading showError displayResults
       handleFileSelection removeFile switchTab ratioInput
       mbind M_bind mret M_ret tryCatch gets modify emit alert throw await id
       loading loaded shown state effects result];
  cbn [fst snd panes inputText upload controls results loadingIndicator
       set_panes set_inputText set_upload set_controls set_results
       set_loadingIndicator textInput fileInput uploadedFile fileName fileInfo
       Options.modelType Options.ratio Options.language
       app negb andb truthy textValue String.eqb Ascii.eqb].

(** One click on the button: no request and an alert when there is no
    input; else one request, then the result shown or the error
    reported. *)
Lemma handleSummarize_run net p :
  handleSummarize net p =
  match requestOf p with
  | None => (Return tt, p, [Alert "Please enter text or upload a file to summarize."])
  | Some req =>
      match settled net req with
      | Return r => (Return tt, shown r (loaded (loading p)), [Fetch req])
      | Throw e =>
          (Return tt, loaded (loaded (loading p)),
           [Fetch req; Alert ("Error: " ++ message e)])
      end
  end.
Proof.
  unfold requestOf, activeText, activeFile, optionsOf.
  destruct (contains (textInput (panes p)) "hidden") eqn:Ht;
    destruct (contains (fileInput (panes p)) "hidden") eqn:Hf;
    destruct (trim (inputText p)) as [| c s] eqn:Htrim;
    destruct (uploadedFile (upload p)) as [f |] eqn:Hup.
  all: repeat (progress (run_handlers;
         rewrite ?Ht, ?Hf, ?Htrim, ?Hup, ?summarizeText_run, ?summarizeFile_run,
                 ?bool_decide_eq_true_2, ?bool_decide_eq_false_2
           by (eauto using is_Some_None))).
  all: try reflexivity.
  all: match goal with |- context [settled ?n ?r] => destruct (settled n r) end.
  all: run_handlers; reflexivity.
Qed.

Lemma validateInput_run p :
  validateInput p =
  match requestOf p with
  | None => (Return false, p, [Alert "Please enter text or upload a file to summarize."])
  | Some _ => (Return true, p, [])
  end.
Proof.
  unfold requestOf, validateInput. cbv [mbind M_bind].
  rewrite getInputText_run, getUploadedFile_run.
  destruct (activeText p) as [[| c s] |]; destruct (activeFile p) as [f |];
    cbn; rewrite ?bool_decide_eq_true_2, ?bool_decide_eq_false_2
           by (eauto using is_Some_None); reflexivity.
Qed.

(** C4: when the trimmed text is empty and no file is uploaded,
    validateInput returns false, and a click on the button sends no
    request and leaves the page as it is. *)
Theorem empty_input_rejected net p :
  trim (inputText p) = "" ->
  uploadedFile (upload p) = None ->
  result (validateInput p) = Return false /\
  requests (effects (handleSummarize net p)) = [] /\
  state (handleSummarize net p) = p.
Proof.
  intros Ht Hf.
  assert (Hreq : requestOf p = None).
  { unfold requestOf, activeText, activeFile. rewrite Ht, Hf.
    destruct (contains _ _); destruct (contains _ _); reflexivity. }
  rewrite validateInput_run, handleSummarize_run, Hreq. done.
Qed.


Lemma parseInt_slider v : 10 <= v <= 50 -> parseInt (decimal v) = Num (inject_Z v).
Proof.
  intros Hv.
  assert (H : exists n : nat, v = 10 + Z.of_nat n /\ (n < 41)%nat).
  { exists (Z.to_nat (v - 10)). lia. }
  destruct H as (n & -> & Hn).
  do 41 (destruct n as [| n]; [vm_compute; reflexivity |]).
  lia.
Qed.

Lemma selectValue_in s : selectOk s -> In (selectValue s) (options s).
Proof.
  intros [H0 Hlt]. unfold selectValue.
  destruct (Z.ltb_spec (selectedIndex s) 0); [lia |].
  destruct (lookup_lt_is_Some_2 (options s) (Z.to_nat (selectedIndex s))) as [x Hx]; [lia |].
  rewrite Hx. simpl. apply list_elem_of_In. eapply list_elem_of_lookup_2, Hx.
Qed.

Lemma optionsOf_ratio p :
  10 <= position p <= 50 ->
  exists q, Options.ratio (optionsOf p) = Num q /\ (q == position p # 100)%Q /\
            (10 # 100 <= q)%Q /\ (q <= 50 # 100)%Q.
Proof.
  intros Hv. unfold optionsOf, rangeValue. cbn [Options.ratio].
  fold (position p). rewrite parseInt_slider by done.
  eexists. split; [reflexivity |].
  unfold Qeq, Qle. simpl. lia.
Qed.

Lemma requests_handleSummarize net p :
  requests (effects (handleSummarize net p)) =
  match requestOf p with Some req => [req] | None => [] end.
Proof.
  rewrite handleSummarize_run.
  destruct (requestOf p) as [req |]; [| reflexivity].
  destruct (settled net req); reflexivity.
Qed.

(** C1: every request the client sends to the /summarize endpoint is a
    JSON record with exactly the fields text, model_type, ratio and
    language, in which model_type is one of ensemble, textrank, tfidf and
    language one of english, spanish, french, german, italian, the two
    selects being those of the page with one of their options selected
    and the slider within its bounds. *)
Theorem summarize_request_record net p req :
  controlsOk (controls p) ->
  In req (requests (effects (handleSummarize net p))) ->
  url req = ApiService.baseUrl ++ "/summarize" ->
  exists text m q l,
    body req = JsonBody (JObject [("text", JString text); ("model_type", JString m);
                                  ("ratio", JNumber q); ("language", JString l)]) /\
    fields (JObject [("text", JString text); ("model_type", JString m);
                      ("ratio", JNumber q); ("language", JString l)]) =
      ["text"; "model_type"; "ratio"; "language"] /\
    In m modelTypes /\ In l languages.
Proof.
  intros Hc Hin Hurl. rewrite requests_handleSummarize in Hin.
  destruct (requestOf p) as [req' |] eqn:Hreq; [| destruct Hin].
  destruct Hin as [<- | []].
  destruct (optionsOf_ratio p) as (q & Hq & _).
  { destruct Hc as [_ _ _ _ Hmin Hmax [Hlo Hhi]]. unfold position. lia. }
  unfold requestOf in Hreq.
  destruct (activeText p) as [[| c s] |]; destruct (activeFile p) as [f |];
    try discriminate Hreq; injection Hreq as <-; try discriminate Hurl.
  all: exists (String c s), (selectValue (modelType (controls p))), q,
         (selectValue (language (controls p))).
  all: split_and!;
    [ unfold textRequest, stringify; rewrite Hq; reflexivity
    | reflexivity
    | unfold modelTypes; rewrite <- (model_options _ Hc); apply selectValue_in, Hc
    | unfold languages; rewrite <- (language_options _ Hc); apply selectValue_in, Hc ].
Qed.

(** C5: when the response to the request of a click is not ok, the API
    service throws an error whose message is "API error: <status>"; the
    click ends with that one request followed by one alert showing the
    message, the loading indicator hidden and the results untouched: no
    partial result and no second request. *)
Theorem failed_request_reported net p req r :
  In req (requests (effects (handleSummarize net p))) ->
  net req = Responded r ->
  ok r = false ->
  let out := handleSummarize net p in
  let msg := "API error: " ++ decimal (status r) in
  effects out = [Fetch req; Alert ("Error: " ++ msg)] /\
  contains (loadingIndicator (state out)) "hidden" = true /\
  results (state out) = results p /\
  (forall S (s : S) text m ra l,
     requests (effects (ApiService.summarizeText net text m ra l s)) = [req] ->
     result (ApiService.summarizeText net text m ra l s) = Throw {| message := msg |}) /\
  (forall S (s : S) f m ra l,
     requests (effects (ApiService.summarizeFile net f m ra l s)) = [req] ->
     result (ApiService.summarizeFile net f m ra l s) = Throw {| message := msg |}).
Proof.
  intros Hin Hnet Hok out msg. subst out msg.
  rewrite requests_handleSummarize in Hin. rewrite handleSummarize_run.
  destruct (requestOf p) as [req' |]; [| destruct Hin].
  destruct Hin as [<- | []].
  unfold settled. rewrite Hnet, Hok.
  split_and!.
  - reflexivity.
  - run_handlers. apply contains_true. set_solver.
  - reflexivity.
  - intros S s text m ra l. rewrite summarizeText_call. cbn.
    intros [= ->]. unfold settled. by rewrite Hnet, Hok.
  - intros S s f m ra l. rewrite summarizeFile_call. cbn.
    intros [= ->]. unfold settled. by rewrite Hnet, Hok.
Qed.



Lemma initialPage_ok : pageOk initialPage.
Proof.
  split; [constructor; try reflexivity; unfold selectOk, rangeOk; simpl; lia |].
  intros f Hf. discriminate Hf.
Qed.

Lemma pick_ok i s : selectOk s -> selectOk (pick i s) /\ options (pick i s) = options s.
Proof.
  intros Hs. unfold pick. case_bool_decide; [| done].
  split; [| done]. unfold selectOk. simpl. lia.
Qed.

Lemma guard_run (m : M Page unit) p :
  tryCatch m (fun _ => mret tt) p = (Return tt, state (m p), effects (m p)).
Proof.
  unfold tryCatch, state, effects. cbv [mret M_ret].
  destruct (m p) as [[[[] | e] s] es]; simpl; rewrite ?app_nil_r; done.
Qed.

Lemma run_cons ev rest p :
  let p1 := state (handle ev p) in
  state (run (ev :: rest) p) = state (run rest p1) /\
  effects (run (ev :: rest) p) = (effects (handle ev p) ++ effects (run rest p1))%list.
Proof.
  cbn [run]. cbv [mbind M_bind]. rewrite guard_run.
  unfold state, effects. cbn.
  destruct (run rest _) as [[r s] es]. done.
Qed.

Lemma requests_app es1 es2 :
  requests (es1 ++ es2)%list = (requests es1 ++ requests es2)%list.
Proof. unfold requests. apply omap_app. Qed.

Lemma handleFileSelection_run f p :
  handleFileSelection f p =
  if (maxSize <? size f)%N then
    (Return tt, p, [Alert "File is too large. Maximum size is 10MB."])
  else if includes validTypes
            (toLowerCase (substring (name f) (lastIndexOf (name f) "."))) then
    (Return tt,
     set_upload {| uploadedFile := Some f; fileName := name f;
                   fileInfo := fileInfo (upload p) ∖ {["hidden"]} |} p, [])
  else
    (Return tt, p,
     [Alert "Invalid file type. Please upload a TXT, PDF, DOCX, HTML, or MD file."]).
Proof.
  unfold handleFileSelection.
  destruct (maxSize <? size f)%N; [reflexivity |].
  destruct (includes _ _); reflexivity.
Qed.

Lemma state_handleSummarize net p :
  controls (state (handleSummarize net p)) = controls p /\
  upload (state (handleSummarize net p)) = upload p.
Proof.
  rewrite handleSummarize_run.
  destruct (requestOf p) as [req |]; [| done].
  destruct (settled net req); done.
Qed.

Lemma handle_ok ev p : pageOk p -> pageOk (state (handle ev p)).
Proof.
  intros [Hc Hu]. destruct ev as [s | i | i | v | t | f | | net]; cbn [handle].
  - done.
  - split; [| exact Hu]. destruct Hc. destruct (pick_ok i _ model_selected0) as [? Ho].
    constructor; cbn; rewrite ?Ho; done.
  - split; [| exact Hu]. destruct Hc. destruct (pick_ok i _ language_selected0) as [? Ho].
    constructor; cbn; rewrite ?Ho; done.
  - split; [| exact Hu]. destruct Hc as [? ? ? ? Hmin Hmax [Hlo Hhi]].
    run_handlers. constructor; cbn; try done. unfold rangeOk, slide. cbn. lia.
  - done.
  - rewrite handleFileSelection_run.
    destruct (N.ltb_spec maxSize (size f)); [done |].
    destruct (includes _ _) eqn:Hi; [| done].
    split; [exact Hc |]. intros g [= <-]. split; [lia | exact Hi].
  - split; [exact Hc |]. intros g Hg. discriminate Hg.
  - destruct (state_handleSummarize net p) as [Hc' Hu']. split.
    + by rewrite Hc'.
    + unfold uploadOk. by rewrite Hu'.
Qed.

Lemma requests_handle ev p :
  requests (effects (handle ev p)) =
  match ev with
  | ClickSummarize net => match requestOf p with Some req => [req] | None => [] end
  | _ => []
  end.
Proof.
  destruct ev as [s | i | i | v | t | f | | net]; cbn [handle]; try reflexivity.
  - rewrite handleFileSelection_run.
    destruct (maxSize <? size f)%N; [reflexivity |].
    destruct (includes _ _); reflexivity.
  - apply requests_handleSummarize.
Qed.

(** What holds of the request of every well-formed page holds of every
    request of a session. *)
Lemma session_requests (G : Request -> Prop) :
  (forall p req, pageOk p -> requestOf p = Some req -> G req) ->
  forall evs p req, pageOk p -> In req (requests (effects (run evs p))) -> G req.
Proof.
  intros HG evs. induction evs as [| ev rest IH]; intros p req Hp Hin.
  - destruct Hin.
  - destruct (run_cons ev rest p) as [_ He]. rewrite He, requests_app in Hin.
    apply in_app_or in Hin as [Hin | Hin].
    + rewrite requests_handle in Hin. destruct ev; try destruct Hin.
      destruct (requestOf p) as [r |] eqn:Hr; [| destruct Hin].
      destruct Hin as [<- | []]. by apply (HG p).
    + apply (IH (state (handle ev p))); [by apply handle_ok | done].
Qed.


Lemma requestOf_file p req g :
  uploadOk p -> requestOf p = Some req -> fileSent req = Some g ->
  (size g <= maxSize)%N.
Proof.
  intros Hu Hreq Hg. unfold requestOf, activeFile in Hreq.
  destruct (activeText p) as [[| c s] |];
    destruct (contains (fileInput (panes p)) "hidden");
    try destruct (uploadedFile (upload p)) as [f |] eqn:Hf;
    try discriminate Hreq; injection Hreq as <-; try discriminate Hg.
  all: injection Hg as <-; by apply Hu.
Qed.

(** C6: a selected file of more than 10 MB (10 * 1024 * 1024 bytes) is
    rejected: the page, and with it the uploaded file, stays as it was and
    the user is told so; and no request of any session that starts on
    the page as loaded carries such a file. *)
Theorem oversized_file_rejected f :
  (maxSize < size f)%N ->
  maxSize = 10485760%N /\
  (forall p,
     state (handleFileSelection f p) = p /\
     effects (handleFileSelection f p) =
       [Alert "File is too large. Maximum size is 10MB."]) /\
  (forall evs req,
     In req (requests (effects (run evs initialPage))) -> fileSent req <> Some f).
Proof.
  intros Hf. split_and!; [reflexivity | |].
  - intros p. rewrite handleFileSelection_run.
    destruct (N.ltb_spec maxSize (size f)); [done | lia].
  - intros evs req Hin Hsent.
    assert (size f <= maxSize)%N; [| lia].
    revert Hsent.
    apply (session_requests
             (fun req => fileSent req = Some f -> (size f <= maxSize)%N)
             (fun p r Hp Hr => requestOf_file p r f (proj2 Hp) Hr)
             evs initialPage req initialPage_ok Hin).
Qed.


Lemma lastIndexFrom_none i s c : hasChar c s = false -> lastIndexFrom i s c = -1.
Proof.
  revert i. induction s as [| a r IH]; intros i H; [reflexivity |].
  cbn in *. apply orb_false_elim in H as [Ha Hr].
  rewrite (IH _ Hr), Ha. reflexivity.
Qed.

Lemma lastIndexFrom_last i stem e c :
  0 <= i -> hasChar c e = false ->
  lastIndexFrom i (stem ++ String c e) c = i + Z.of_nat (String.length stem).
Proof.
  revert i. induction stem as [| a r IH]; intros i Hi He; simpl.
  - rewrite (lastIndexFrom_none _ _ _ He), Ascii.eqb_refl. cbn. lia.
  - rewrite IH by (lia || done).
    destruct (Z.leb_spec 0 (i + 1 + Z.of_nat (String.length r))); lia.
Qed.

Lemma drop_append stem t : drop (String.length stem) (stem ++ t) = t.
Proof. induction stem as [| a r IH]; [by destruct t | exact IH]. Qed.

Lemma split_last c s :
  hasChar c s = true -> exists stem e, s = stem ++ String c e /\ hasChar c e = false.
Proof.
  induction s as [| a r IH]; [discriminate |]. cbn.
  destruct (hasChar c r) eqn:Hr.
  - intros _. destruct (IH eq_refl) as (stem & e & -> & He).
    by exists (String a stem), e.
  - rewrite orb_false_r. intros ->%Ascii.eqb_eq. by exists "", r.
Qed.

Lemma extension_last stem e :
  hasChar "." e = false ->
  substring (stem ++ String "." e) (lastIndexOf (stem ++ String "." e) ".") = String "." e.
Proof.
  intros He. unfold lastIndexOf, substring.
  rewrite lastIndexFrom_last by (lia || done).
  replace (Z.to_nat _) with (String.length stem) by lia.
  apply drop_append.
Qed.

Lemma extension_none name :
  hasChar "." name = false -> substring name (lastIndexOf name ".") = name.
Proof.
  intros H. unfold lastIndexOf, substring. rewrite lastIndexFrom_none by done.
  by destruct name.
Qed.

Lemma lowerChar_dot c : Ascii.eqb (lowerChar c) "." = Ascii.eqb c ".".
Proof. destruct c as [[] [] [] [] [] [] [] []]; reflexivity. Qed.

Lemma hasChar_lower s : hasChar "." (toLowerCase s) = hasChar "." s.
Proof. induction s as [| a r IH]; [done |]. cbn. by rewrite lowerChar_dot, IH. Qed.

Lemma lowerChar_idem c : lowerChar (lowerChar c) = lowerChar c.
Proof. destruct c as [[] [] [] [] [] [] [] []]; reflexivity. Qed.

Lemma toLowerCase_idem s : toLowerCase (toLowerCase s) = toLowerCase s.
Proof. induction s as [| a r IH]; [done |]. cbn. by rewrite lowerChar_idem, IH. Qed.

Lemma equalIgnoringCase_lower a b :
  equalIgnoringCase a b = true <-> toLowerCase a = toLowerCase b.
Proof.
  revert b. induction a as [| x a IH]; intros [| y b]; cbn; try done.
  rewrite andb_true_iff, IH, Ascii.eqb_eq. split; [by intros [-> ->] | by intros [= -> ->]].
Qed.

Lemma includes_In l x : includes l x = true <-> In x l.
Proof.
  unfold includes. rewrite existsb_exists. split.
  - by intros (y & Hy & ->%String.eqb_eq).
  - intros H. exists x. by rewrite String.eqb_refl.
Qed.

Lemma validTypes_lower t :
  In t validTypes -> toLowerCase t = t /\ hasChar "." t = true.
Proof. cbn. intros H. repeat destruct H as [<- | H]; try done. Qed.

(** The test of the code is the test on the final extension. *)
Lemma type_check_iff name :
  includes validTypes (toLowerCase (substring name (lastIndexOf name "."))) = true <->
  acceptedType name.
Proof.
  rewrite includes_In. split.
  - intros Hin. destruct (hasChar "." name) eqn:Hdot.
    + destruct (split_last _ _ Hdot) as (stem & e & -> & He).
      rewrite extension_last in Hin by done.
      exists (String "." e), (toLowerCase (String "." e)). split_and!; [by exists stem, e | done |].
      apply equalIgnoringCase_lower. by rewrite toLowerCase_idem.
    + rewrite extension_none in Hin by done.
      apply validTypes_lower in Hin as [_ Hd]. rewrite hasChar_lower in Hd. congruence.
  - intros (ext & t & (stem & e & -> & -> & He) & Ht & Heq).
    rewrite extension_last by done.
    apply equalIgnoringCase_lower in Heq. rewrite Heq.
    apply validTypes_lower in Ht as Hl. destruct Hl as [-> _]. done.
Qed.

(** C7, amended: a selected file of at most 10 MB is accepted if and only
    if the final extension of its name, compared without regard to case,
    is one of .txt, .pdf, .docx, .html, .md; with any other extension the
    page stays as it was, no file is stored, and the user is told so. *)
Theorem file_type_checked f p :
  (size f <= maxSize)%N ->
  (accepted f p <-> acceptedType (name f)) /\
  (~ acceptedType (name f) ->
     state (handleFileSelection f p) = p /\
     effects (handleFileSelection f p) =
       [Alert "Invalid file type. Please upload a TXT, PDF, DOCX, HTML, or MD file."]).
Proof.
  intros Hsize. unfold accepted. rewrite handleFileSelection_run.
  destruct (N.ltb_spec maxSize (size f)); [lia |].
  rewrite <- type_check_iff.
  destruct (includes _ _); cbn.
  - split; [done | intros H'; by destruct H'].
  - split; [| done]. split; [intros [_ [=]] | discriminate].
Qed.

(** Without the bound on the size the equivalence fails: a file of more
    than 10 MB named notes.txt has an accepted extension and is not
    accepted. *)
Lemma file_type_alone_counterexample :
  acceptedType (name bigTextFile) /\ ~ accepted bigTextFile initialPage.
Proof.
  split.
  - exists ".txt", ".txt". split_and!; [by exists "notes", "txt" | cbn; tauto | reflexivity].
  - intros [H _]. rewrite handleFileSelection_run in H. discriminate H.
Qed.



(** C10: with the optional arguments absent, summarizeText and
    summarizeFile send model_type "ensemble", ratio 0.3 and language
    "english"; in general each parameter takes its default exactly when
    its argument is absent and the argument itself otherwise, and there
    are explicit arguments for which the request differs from the
    default one. *)
Theorem defaults_when_absent {S} net (s : S) text f m r l :
  let ensemble := VString "ensemble" in
  let ratio := VNumber (Num (3 # 10)) in
  let english := VString "english" in
  requests (effects (ApiService.summarizeText net text VUndefined VUndefined VUndefined s)) =
    [jsonRequest text ensemble ratio english] /\
  requests (effects (ApiService.summarizeFile net f VUndefined VUndefined VUndefined s)) =
    [formRequest f ensemble ratio english] /\
  requests (effects (ApiService.summarizeText net text m r l s)) =
    [jsonRequest text (effective m ensemble) (effective r ratio) (effective l english)] /\
  requests (effects (ApiService.summarizeFile net f m r l s)) =
    [formRequest f (effective m ensemble) (effective r ratio) (effective l english)] /\
  (exists m' r' l',
     absent m' = false /\ absent r' = false /\ absent l' = false /\
     requests (effects (ApiService.summarizeText net text m' r' l' s)) =
       [jsonRequest text m' r' l'] /\
     requests (effects (ApiService.summarizeFile net f m' r' l' s)) =
       [formRequest f m' r' l'] /\
     jsonRequest text m' r' l' <> jsonRequest text ensemble ratio english /\
     formRequest f m' r' l' <> formRequest f ensemble ratio english).
Proof.
  intros ensemble ratio english.
  assert (Hd : forall a d, orDefault a d = effective a d) by (by intros [] d).
  rewrite !summarizeText_call, !summarizeFile_call, !Hd. cbn [effects snd requests omap].
  split_and!; try reflexivity.
  exists (VString "tfidf"), (VNumber (Num (1 # 2))), (VString "french").
  rewrite !summarizeText_call, !summarizeFile_call.
  split_and!; try reflexivity.
  - intros H. apply (f_equal body) in H. destruct text as [| | b | [| q] | t]; discriminate H.
  - intros H. apply (f_equal body) in H. discriminate H.
Qed.

Lemma trimEnd_empty s : trimEnd s = "" <-> blank s = true.
Proof.
  induction s as [| c r IH]; [done |]. cbn.
  destruct (trimEnd r) eqn:Hr.
  - destruct (isWhiteSpace c); cbn; [tauto | done].
  - rewrite andb_true_iff. split; [done | intros [_ H]]. apply IH in H. done.
Qed.

Lemma blank_trimStart s : blank (trimStart s) = blank s.
Proof.
  induction s as [| c r IH]; [done |]. cbn.
  destruct (isWhiteSpace c) eqn:Hc; [done |]. cbn. by rewrite Hc.
Qed.

(** The trimmed text is empty exactly for the empty string and for the
    strings made of white space. *)
Lemma trim_blank s : trim s = "" <-> blank s = true.
Proof. unfold trim. by rewrite trimEnd_empty, blank_trimStart. Qed.

(** *** The properties at sample inputs *)

Lemma summarize_request_record_witness :
  exists text m q l,
    body (textRequest sampleText (optionsOf samplePage)) =
      JsonBody (JObject [("text", JString text); ("model_type", JString m);
                         ("ratio", JNumber q); ("language", JString l)]) /\
    fields (JObject [("text", JString text); ("model_type", JString m);
                     ("ratio", JNumber q); ("language", JString l)]) =
      ["text"; "model_type"; "ratio"; "language"] /\
    In m modelTypes /\ In l languages.
Proof.
  apply (summarize_request_record sampleNetwork samplePage).
  - constructor; try reflexivity; unfold selectOk, rangeOk; simpl; lia.
  - vm_compute. left. reflexivity.
  - reflexivity.
Defined.


Lemma empty_input_rejected_witness :
  result (validateInput blankPage) = Return false /\
  requests (effects (handleSummarize sampleNetwork blankPage)) = [] /\
  state (handleSummarize sampleNetwork blankPage) = blankPage.
Proof. apply (empty_input_rejected sampleNetwork blankPage); reflexivity. Defined.

Lemma failed_request_reported_witness :
  let req := textRequest sampleText (optionsOf samplePage) in
  let out := handleSummarize failingNetwork samplePage in
  let msg := "API error: 500" in
  effects out = [Fetch req; Alert ("Error: " ++ msg)] /\
  contains (loadingIndicator (state out)) "hidden" = true /\
  results (state out) = results samplePage /\
  (forall S (s : S) text m ra l,
     requests (effects (ApiService.summarizeText failingNetwork text m ra l s)) = [req] ->
     result (ApiService.summarizeText failingNetwork text m ra l s) =
       Throw {| message := msg |}) /\
  (forall S (s : S) f m ra l,
     requests (effects (ApiService.summarizeFile failingNetwork f m ra l s)) = [req] ->
     result (ApiService.summarizeFile failingNetwork f m ra l s) =
       Throw {| message := msg |}).
Proof.
  apply (failed_request_reported failingNetwork samplePage
           (textRequest sampleText (optionsOf samplePage))
           {| status := 500; jsonBody := Throw {| message := "" |} |}).
  - vm_compute. left. reflexivity.
  - reflexivity.
  - reflexivity.
Defined.

Lemma oversized_file_rejected_witness :
  maxSize = 10485760%N /\
  (forall p,
     state (handleFileSelection bigTextFile p) = p /\
     effects (handleFileSelection bigTextFile p) =
       [Alert "File is too large. Maximum size is 10MB."]) /\
  (forall evs req,
     In req (requests (effects (run evs initialPage))) ->
     fileSent req <> Some bigTextFile).
Proof. apply (oversized_file_rejected bigTextFile). reflexivity. Defined.

Lemma file_type_checked_witness :
  (accepted smallFile initialPage <-> acceptedType (name smallFile)) /\
  (~ acceptedType (name smallFile) ->
     state (handleFileSelection smallFile initialPage) = initialPage /\
     effects (handleFileSelection smallFile initialPage) =
       [Alert "Invalid file type. Please upload a TXT, PDF, DOCX, HTML, or MD file."]).
Proof. apply (file_type_checked smallFile initialPage). vm_compute. discriminate. Defined.


(** What the sample result looks like on the page. *)
Example sample_statistics :
  let shown := results (state (displayResults sampleResult samplePage)) in
  originalLength shown = "11 words" /\
  compressionRatio shown = "36.4%" /\
  processingTime shown = "0.01s".
Proof. vm_compute. repeat split. Qed.

Example parseInt_examples :
  parseInt "30" = Num 30 /\ parseInt "  42px" = Num 42 /\
  parseInt "-0x1f" = Num (-31) /\ parseInt "px" = NaN.
Proof. vm_compute. repeat split. Qed.

Example toFixed_examples :
  toFixed (285 # 10) 1 = "28.5" /\ toFixed (1 # 8) 2 = "0.13" /\
  toFixed (- (1 # 1000)) 2 = "-0.00" /\ toFixed (12345 # 100) 0 = "123".
Proof. vm_compute. repeat split. Qed.

(** A name without a dot is its own "extension" and is refused; case
    does not matter; only the last dot counts. *)
Example extension_examples :
  includes validTypes (toLowerCase (substring "txt" (lastIndexOf "txt" "."))) = false /\
  includes validTypes (toLowerCase (substring "a.TXT" (lastIndexOf "a.TXT" "."))) = true /\
  includes validTypes (toLowerCase (substring "a.txt.exe" (lastIndexOf "a.txt.exe" "."))) = false.
Proof. vm_compute. repeat split. Qed.

End Client.

(** ** The number of selected sentences *)

Section Count.
Import Selector.

Lemma round_wd t x y : (x == y)%Q -> round t x = round t y.
Proof.
  intros H. unfold round. rewrite (Qfloor_comp _ _ H).
  assert (Hc : (x - inject_Z (Qfloor y) ?= 1 # 2)%Q = (y - inject_Z (Qfloor y) ?= 1 # 2)%Q).
  { apply Qcompare_comp; [by rewrite H | reflexivity]. }
  by rewrite Hc.
Qed.

Lemma round_upper t x : (inject_Z (round t x) <= x + (1 # 2))%Q.
Proof.
  unfold round.
  pose proof (Qfloor_le x) as Hf.
  destruct (x - inject_Z (Qfloor x) ?= 1 # 2)%Q eqn:Hc.
  - apply Qeq_alt in Hc.
    assert (inject_Z (Qfloor x + 1) <= x + (1 # 2))%Q.
    { rewrite inject_Z_plus. change (inject_Z 1) with 1%Q. lra. }
    destruct t; [done |]. destruct (Z.even _); [lra | done].
  - lra.
  - apply Qgt_alt in Hc. rewrite inject_Z_plus. change (inject_Z 1) with 1%Q. lra.
Qed.

Lemma clampRatio_valid r : validRatio r -> (clampRatio r == r)%Q.
Proof.
  intros [Hlo Hhi]. unfold clampRatio.
  rewrite (Q.min_l r ratioMax Hhi). by apply Q.max_r.
Qed.

(** [round] gives an integer nearest to its argument. *)
Lemma round_nearest t x : (Qabs (inject_Z (round t x) - x) <= 1 # 2)%Q.
Proof.
  apply Qabs_Qle_condition. unfold round.
  pose proof (Qfloor_le x) as Hf. pose proof (Qlt_floor x) as Hl.
  rewrite inject_Z_plus in Hl. change (inject_Z 1) with 1%Q in Hl.
  destruct (x - inject_Z (Qfloor x) ?= 1 # 2)%Q eqn:Hc.
  - apply Qeq_alt in Hc.
    assert (- (1 # 2) <= inject_Z (Qfloor x + 1) - x <= 1 # 2)%Q.
    { rewrite inject_Z_plus. change (inject_Z 1) with 1%Q. lra. }
    destruct t; [done |]. destruct (Z.even _); [lra | done].
  - apply Qlt_alt in Hc. lra.
  - apply Qgt_alt in Hc. rewrite inject_Z_plus. change (inject_Z 1) with 1%Q. lra.
Qed.

Lemma length_omap_lookup (l : list string) (idx : list nat) :
  Forall (fun i => (i < length l)%nat) idx ->
  length (omap (fun i => l !! i) idx) = length idx.
Proof.
  induction 1 as [| i idx Hi _ IH]; [done |]. cbn.
  destruct (lookup_lt_is_Some_2 l i Hi) as [s ->]. cbn. by rewrite IH.
Qed.

Lemma Forall2_omap_lookup (l : list string) (idx : list nat) :
  Forall (fun i => (i < length l)%nat) idx ->
  Forall2 (fun i s => l !! i = Some s) idx (omap (fun i => l !! i) idx).
Proof.
  induction 1 as [| i idx Hi _ IH]; [constructor |]. cbn.
  destruct (lookup_lt_is_Some_2 l i Hi) as [s Hs]. rewrite Hs. cbn.
  by constructor.
Qed.

Lemma ranked_bound (ranked : list nat) n m :
  ranked ≡ₚ seq 0 n -> Forall (fun i => (i < n)%nat) (take m ranked).
Proof.
  intros Hp. apply Forall_forall. intros i Hi.
  apply elem_of_take in Hi as (j & Hj & _).
  apply list_elem_of_lookup_2 in Hj. rewrite Hp in Hj.
  apply list_elem_of_In, in_seq in Hj. lia.
Qed.

Lemma selectIndices_spec k (ranked : list nat) :
  selectIndices k ranked ≡ₚ take (Z.to_nat k) ranked /\
  Sorted Nat.le (selectIndices k ranked).
Proof.
  unfold selectIndices. split.
  - apply merge_sort_Permutation.
  - apply (Sorted_merge_sort Nat.le).
Qed.

(** C3: for n >= 2 sentences, a valid ratio r and a ranking of the n
    sentences, the selector returns exactly k sentences, where
    k = max(1, round(r * n)), round(r * n) being an integer nearest to
    r * n however ties are rounded, and 1 <= k <= n; they are the
    sentences at the k first indices of the ranking, one for each, taken
    in ascending order of index.  For one sentence, k is 1 and the sentence is
    returned, whatever the ratio. *)
Theorem target_count_bounds t r sentences ranked :
  let n := length sentences in
  validRatio r ->
  (2 <= n)%nat ->
  ranked ≡ₚ seq 0 n ->
  let k := targetCount t r n in
  let x := (r * inject_Z (Z.of_nat n))%Q in
  (Qabs (inject_Z (round t x) - x) <= 1 # 2)%Q /\
  k = Z.max 1 (round t x) /\
  1 <= k <= Z.of_nat n /\
  length (selectSentences t r sentences ranked) = Z.to_nat k /\
  selectIndices k ranked ≡ₚ take (Z.to_nat k) ranked /\
  Sorted Nat.le (selectIndices k ranked) /\
  Forall2 (fun i s => sentences !! i = Some s)
    (selectIndices k ranked) (selectSentences t r sentences ranked) /\
  (forall s, s ∈ selectSentences t r sentences ranked <->
             exists i, i ∈ take (Z.to_nat k) ranked /\ sentences !! i = Some s) /\
  (forall r' s ranked',
     ranked' ≡ₚ seq 0 1 ->
     targetCount t r' 1 = 1 /\ selectSentences t r' [s] ranked' = [s]).
Proof.
  intros n Hr Hn Hp k x.
  assert (Hk : k = Z.max 1 (round t x)).
  { subst k x. unfold targetCount.
    destruct (Nat.eqb_spec n 1) as [-> | _]; [lia |].
    by rewrite (round_wd t _ (r * inject_Z (Z.of_nat n))) by (by rewrite clampRatio_valid). }
  assert (Hkn : 1 <= k <= Z.of_nat n).
  { rewrite Hk. split; [lia |].
    apply Z.max_lub; [lia |]. rewrite Zle_Qle.
    pose proof (round_upper t x) as Hu.
    assert (Hn' : (2 <= inject_Z (Z.of_nat n))%Q).
    { change 2%Q with (inject_Z 2). rewrite <- Zle_Qle. lia. }
    destruct Hr as [_ Hhi]. unfold ratioMax in Hhi.
    assert (x <= (50 # 100) * inject_Z (Z.of_nat n))%Q.
    { apply Qmult_le_compat_r; [done | lra]. }
    lra. }
  destruct (selectIndices_spec k ranked) as [Hperm Hsort].
  assert (Hlen : length ranked = n).
  { by rewrite Hp, length_seq. }
  destruct Hkn as [Hk1 Hk2].
  split_and!; try done.
  - apply round_nearest.
  - unfold selectSentences. fold n k. rewrite length_omap_lookup.
    + rewrite Hperm. apply List.firstn_length_le. lia.
    + rewrite Hperm. by apply ranked_bound.
  - unfold selectSentences. fold n k. apply Forall2_omap_lookup.
    rewrite Hperm. by apply ranked_bound.
  - intros s. unfold selectSentences. fold n k. rewrite list_elem_of_omap.
    setoid_rewrite Hperm. done.
  - intros r' s ranked' Hp'. split; [reflexivity |].
    apply Permutation_singleton_r in Hp'. by subst ranked'.
Qed.

Lemma target_count_bounds_witness :
  let k := targetCount HalfEven (30 # 100) 5 in
  let x := ((30 # 100) * inject_Z (Z.of_nat 5))%Q in
  (Qabs (inject_Z (round HalfEven x) - x) <= 1 # 2)%Q /\
  k = Z.max 1 (round HalfEven x) /\
  1 <= k <= Z.of_nat 5 /\
  length (selectSentences HalfEven (30 # 100) sampleSentences sampleRanking) = Z.to_nat k /\
  selectIndices k sampleRanking ≡ₚ take (Z.to_nat k) sampleRanking /\
  Sorted Nat.le (selectIndices k sampleRanking) /\
  Forall2 (fun i s => sampleSentences !! i = Some s)
    (selectIndices k sampleRanking)
    (selectSentences HalfEven (30 # 100) sampleSentences sampleRanking) /\
  (forall s, s ∈ selectSentences HalfEven (30 # 100) sampleSentences sampleRanking <->
             exists i, i ∈ take (Z.to_nat k) sampleRanking /\
                       sampleSentences !! i = Some s) /\
  (forall r' s ranked',
     ranked' ≡ₚ seq 0 1 ->
     targetCount HalfEven r' 1 = 1 /\ selectSentences HalfEven r' [s] ranked' = [s]).
Proof.
  apply (target_count_bounds HalfEven (30 # 100) sampleSentences sampleRanking).
  - split; vm_compute; discriminate.
  - simpl. lia.
  - simpl. unfold sampleRanking. solve_Permutation.
Defined.

(** Five sentences at ratio 0.3, ranked d, a, e, b, c: the two best, in
    the order of the text. *)
Example select_example :
  selectSentences HalfUp (30 # 100) sampleSentences sampleRanking =
    ["Sentence a."; "Sentence d."].
Proof. vm_compute. reflexivity. Qed.

(** The scenario of the specification: three sentences at ratio 0.34 give
    one sentence; and the two tie rules differ at a half. *)
Example target_count_examples :
  targetCount HalfUp (34 # 100) 3 = 1 /\
  targetCount HalfUp (30 # 100) 5 = 2 /\
  targetCount HalfEven (30 # 100) 5 = 2 /\
  targetCount HalfUp (50 # 100) 5 = 3 /\
  targetCount HalfEven (50 # 100) 5 = 2 /\
  targetCount HalfUp (90 # 100) 10 = 5.
Proof. vm_compute. repeat split. Qed.

End Count.

(** * Further properties *)

(** ** The theme and the preference *)

Section ThemeMore.
Import ThemeSwitcher ThemeObserve.

Lemma currentTheme_applyTheme t d :
  currentTheme (applyTheme t d) = if String.eqb t "dark" then "dark" else "light".
Proof.
  unfold currentTheme. destruct (String.eqb_spec t "dark") as [-> | Hne].
  - rewrite applyTheme_dark. cbn. replace (contains _ _) with true; [done |].
    symmetry. apply contains_true. set_solver.
  - rewrite applyTheme_other by done. cbn. replace (contains _ _) with false; [done |].
    symmetry. apply contains_false. set_solver.
Qed.

Lemma currentTheme_setItem k v d : currentTheme (setItem k v d) = currentTheme d.
Proof. reflexivity. Qed.

(** X1: a call of toggleTheme always changes the theme shown, dark to
    light and light to dark, and touches no class of html or body other
    than dark. *)
Theorem toggleTheme_flips d :
  currentTheme (toggleTheme d) =
    (if String.eqb (currentTheme d) "dark" then "light" else "dark") /\
  forall c, c <> "dark" ->
    (c ∈ html_classList (toggleTheme d) <-> c ∈ html_classList d) /\
    (c ∈ body_classList (toggleTheme d) <-> c ∈ body_classList d).
Proof.
  destruct (decide ("dark" ∈ html_classList d)) as [Hd | Hd].
  - rewrite (toggleTheme_dark d Hd). rewrite currentTheme_setItem, currentTheme_applyTheme.
    unfold currentTheme at 1. apply contains_true in Hd as ->. split; [done |].
    intros c Hc. rewrite applyTheme_other by done. cbn. set_solver.
  - rewrite (toggleTheme_light d Hd). rewrite currentTheme_setItem, currentTheme_applyTheme.
    unfold currentTheme at 1. apply contains_false in Hd as ->. split; [done |].
    intros c Hc. rewrite applyTheme_dark. cbn. set_solver.
Qed.

Lemma savedTheme_toggleTheme d : savedTheme (toggleTheme d) = Some (currentTheme (toggleTheme d)).
Proof.
  unfold savedTheme. rewrite toggleTheme_saved.
  unfold currentTheme. by destruct (contains _ _).
Qed.

Lemma currentTheme_values d : currentTheme d = "dark" \/ currentTheme d = "light".
Proof. unfold currentTheme. destruct (contains _ _); auto. Qed.

(** X2: the preference saved by toggleTheme survives a reload: a switcher
    constructed on any document holding that localStorage applies the
    theme that was shown after the toggle, whatever the system
    preference. *)
Theorem preference_survives_reload d d' :
  localStorage d' = localStorage (toggleTheme d) ->
  currentTheme (init d') = currentTheme (toggleTheme d) /\ themed (init d').
Proof.
  intros Hs. split.
  - unfold init, loadThemePreference.
    assert (Hsaved : savedTheme d' = Some (currentTheme (toggleTheme d))).
    { rewrite <- savedTheme_toggleTheme. unfold savedTheme, getItem. by rewrite Hs. }
    rewrite Hsaved, currentTheme_applyTheme.
    destruct (currentTheme_values (toggleTheme d)) as [-> | ->]; reflexivity.
  - unfold init, loadThemePreference. destruct (savedTheme d'); apply applyTheme_themed.
Qed.

Lemma systemThemeChanged_cases m d :
  systemThemeChanged m d =
  match savedTheme d with
  | Some _ => withPreference m d
  | None => applyTheme (if m then "dark" else "light") (withPreference m d)
  end.
Proof. reflexivity. Qed.

(** X3: once the user has toggled, a change of the system theme changes
    neither the classes, nor the background colour, nor the saved
    preference. *)
Theorem user_preference_wins d m :
  let t := toggleTheme d in
  html_classList (systemThemeChanged m t) = html_classList t /\
  body_classList (systemThemeChanged m t) = body_classList t /\
  html_backgroundColor (systemThemeChanged m t) = html_backgroundColor t /\
  localStorage (systemThemeChanged m t) = localStorage t.
Proof.
  intros t. rewrite systemThemeChanged_cases. unfold t.
  rewrite savedTheme_toggleTheme. done.
Qed.

(** X4: while no preference is saved, a change of the system theme is
    applied (dark when the query matches, light otherwise) and still
    nothing is saved. *)
Theorem system_theme_followed d m :
  savedTheme d = None ->
  currentTheme (systemThemeChanged m d) = (if m then "dark" else "light") /\
  themed (systemThemeChanged m d) /\
  savedTheme (systemThemeChanged m d) = None.
Proof.
  intros Hs. rewrite systemThemeChanged_cases, Hs.
  split_and!.
  - rewrite currentTheme_applyTheme. by destruct m.
  - apply applyTheme_themed.
  - unfold applyTheme. destruct (String.eqb _ _); exact Hs.
Qed.

(** X5: the inline script of the page head and the constructor of the
    switcher decide alike: html carries dark after the script exactly
    when it does after init on the same document; the script runs to its
    end only if the body is there. *)
Theorem head_script_agrees bodyParsed d :
  currentTheme (HeadScript.run bodyParsed d).2 = currentTheme (init d) /\
  (HeadScript.run bodyParsed d).1 = bodyParsed.
Proof.
  split; [| by destruct bodyParsed].
  unfold init, loadThemePreference, savedTheme, HeadScript.run, HeadScript.wantsDark.
  assert (Hadd : forall cl : gset string, contains (cl ∪ {["dark"]}) "dark" = true).
  { intros cl. apply contains_true. set_solver. }
  assert (Hrem : forall cl : gset string, contains (cl ∖ {["dark"]}) "dark" = false).
  { intros cl. apply contains_false. set_solver. }
  destruct (getItem d storageKey) as [t |].
  - destruct (String.eqb_spec t "") as [-> | Hne].
    + cbn. rewrite currentTheme_applyTheme.
      destruct (prefersDark d), bodyParsed; unfold currentTheme; cbn; by rewrite ?Hadd, ?Hrem.
    + rewrite orb_false_r, currentTheme_applyTheme.
      destruct (String.eqb t "dark"), bodyParsed; unfold currentTheme; cbn; by rewrite ?Hadd, ?Hrem.
  - rewrite currentTheme_applyTheme.
    destruct (prefersDark d), bodyParsed; unfold currentTheme; cbn; by rewrite ?Hadd, ?Hrem.
Qed.

(** X6: in every state the switcher runs in, html and body agree on the
    dark class and the inline background colour is the one of the theme
    shown. *)
Theorem reachable_consistent d :
  reachable d ->
  ("dark" ∈ body_classList d <-> "dark" ∈ html_classList d) /\
  html_backgroundColor d = (if String.eqb (currentTheme d) "dark" then "#1a202c" else "").
Proof.
  intros [Hb Hc]%reachable_themed. split; [done |].
  rewrite Hc. unfold currentTheme. by destruct (contains _ _).
Qed.


Lemma preference_survives_reload_witness :
  currentTheme (init reloadedDocument) = currentTheme (toggleTheme sampleDocument) /\
  themed (init reloadedDocument).
Proof. apply (preference_survives_reload sampleDocument reloadedDocument). reflexivity. Defined.

Lemma system_theme_followed_witness :
  currentTheme (systemThemeChanged false sampleDocument) = "light" /\
  themed (systemThemeChanged false sampleDocument) /\
  savedTheme (systemThemeChanged false sampleDocument) = None.
Proof. apply (system_theme_followed sampleDocument false). reflexivity. Defined.

Lemma reachable_consistent_witness :
  let d := systemThemeChanged false (toggleTheme (init sampleDocument)) in
  ("dark" ∈ body_classList d <-> "dark" ∈ html_classList d) /\
  html_backgroundColor d = (if String.eqb (currentTheme d) "dark" then "#1a202c" else "").
Proof.
  apply reachable_consistent. apply reach_system, reach_toggle, reach_init.
Defined.

End ThemeMore.

(** ** Sessions on the page *)

Section ClientMore.
Import Js Http Eff UIController App Observe Session.

Ltac step_handlers :=
  cbv [handleSummarize validateInput getInputText getUploadedFile
       getSummarizationOptions showLoading hideLoading showError displayResults
       handleFileSelection removeFile switchTab ratioInput handle
       mbind M_bind mret M_ret tryCatch gets modify emit alert throw await id
       loading loaded shown state effects result];
  cbn [fst snd panes inputText upload controls results loadingIndicator
       set_panes set_inputText set_upload set_controls set_results
       set_loadingIndicator textInput fileInput uploadedFile fileName fileInfo
       modelType summaryRatio ratioValue language
       Options.modelType Options.ratio Options.language
       app negb andb].

Lemma run_invariant (I : Page -> Prop) :
  (forall ev p, I p -> I (state (handle ev p))) ->
  forall evs p, I p -> I (state (run evs p)).
Proof.
  intros HI evs. induction evs as [| ev rest IH]; intros p Hp; [exact Hp |].
  destruct (run_cons ev rest p) as [-> _]. apply IH, HI, Hp.
Qed.

Lemma handleSummarize_frame net p :
  let p' := state (handleSummarize net p) in
  panes p' = panes p /\ inputText p' = inputText p /\
  upload p' = upload p /\ controls p' = controls p.
Proof.
  cbv zeta. rewrite handleSummarize_run.
  destruct (requestOf p) as [req |]; [| done].
  destruct (settled net req); done.
Qed.

Lemma handleFileSelection_frame f p :
  let p' := state (handleFileSelection f p) in
  panes p' = panes p /\ inputText p' = inputText p /\ controls p' = controls p /\
  results p' = results p /\ loadingIndicator p' = loadingIndicator p.
Proof.
  cbv zeta. rewrite handleFileSelection_run.
  destruct (maxSize <? size f)%N; [done |]. destruct (includes _ _); done.
Qed.

(** X7: a click never lets an exception escape, and it sends exactly one
    request when validateInput accepts the input and none when it does
    not. *)
Theorem request_iff_valid net p :
  result (handleSummarize net p) = Return tt /\
  length (requests (effects (handleSummarize net p))) =
    match result (validateInput p) with
    | Return true => 1%nat
    | _ => 0%nat
    end.
Proof.
  rewrite handleSummarize_run, validateInput_run.
  destruct (requestOf p) as [req |]; [| done].
  destruct (settled net req); done.
Qed.

(** X8: when fetch rejects, or an ok response has a body that does not
    parse, the click ends like one on a bad status: the one request, one
    alert "Error: <message of the error>", the loading indicator hidden,
    the results untouched. *)
Theorem any_failure_reported net p req e :
  In req (requests (effects (handleSummarize net p))) ->
  net req = Rejected e \/
    (exists r, net req = Responded r /\ ok r = true /\ jsonBody r = Throw e) ->
  let out := handleSummarize net p in
  effects out = [Fetch req; Alert ("Error: " ++ message e)] /\
  loadingHidden (state out) = true /\
  results (state out) = results p.
Proof.
  intros Hin Hfail out. subst out.
  rewrite requests_handleSummarize in Hin. rewrite handleSummarize_run.
  destruct (requestOf p) as [req' |]; [| destruct Hin].
  destruct Hin as [<- | []].
  assert (Hs : settled net req' = Throw e).
  { unfold settled. destruct Hfail as [-> | (r & -> & -> & ->)]; reflexivity. }
  rewrite Hs. split_and!; try reflexivity.
  unfold loadingHidden. step_handlers. apply contains_true. set_solver.
Qed.

Lemma loadingHidden_handle ev p :
  loadingHidden p = true -> loadingHidden (state (handle ev p)) = true.
Proof.
  intros Hp. destruct ev as [s | i | i | v | t | f | | net]; try exact Hp.
  - cbn [handle]. unfold loadingHidden.
    destruct (handleFileSelection_frame f p) as (_ & _ & _ & _ & ->). exact Hp.
  - cbn [handle]. rewrite handleSummarize_run.
    destruct (requestOf p) as [req |]; [| exact Hp].
    unfold loadingHidden.
    destruct (settled net req); step_handlers; apply contains_true; set_solver.
Qed.

(** X9: after every session that starts on the page as loaded, whatever
    the network answered, the loading indicator is hidden. *)
Theorem loading_hidden_after_session evs :
  loadingHidden (state (run evs initialPage)) = true.
Proof.
  apply (run_invariant (fun p => loadingHidden p = true)).
  - intros ev p. apply loadingHidden_handle.
  - apply contains_true. set_solver.
Qed.

Lemma showPane_hidden id tabId cl :
  contains (showPane id tabId cl) "hidden" = negb (String.eqb id tabId).
Proof.
  unfold showPane. destruct (String.eqb id tabId); cbn.
  - apply contains_false. set_solver.
  - apply contains_true. set_solver.
Qed.

Lemma tabs_handle ev p :
  onFileTab p = negb (onTextTab p) -> 
  onFileTab (state (handle ev p)) = negb (onTextTab (state (handle ev p))).
Proof.
  intros Hp. unfold onFileTab, onTextTab in *.
  destruct ev as [s | i | i | v | t | f | | net]; try exact Hp.
  - cbn [handle]. step_handlers. rewrite !showPane_hidden. by destruct t.
  - cbn [handle]. destruct (handleFileSelection_frame f p) as (-> & _). exact Hp.
  - cbn [handle]. destruct (handleSummarize_frame net p) as (-> & _). exact Hp.
Qed.

Lemma tabs_exclusive evs :
  onFileTab (state (run evs initialPage)) = negb (onTextTab (state (run evs initialPage))).
Proof.
  apply (run_invariant (fun p => onFileTab p = negb (onTextTab p))).
  - apply tabs_handle.
  - vm_compute. reflexivity.
Qed.

(** X10: in every session exactly one of the two panes is shown; on the
    text tab getUploadedFile returns null, on the file tab getInputText
    returns null. *)
Theorem one_tab_shown evs :
  let p := state (run evs initialPage) in
  onFileTab p = negb (onTextTab p) /\
  (onTextTab p = true -> result (getUploadedFile p) = Return None) /\
  (onFileTab p = true -> result (getInputText p) = Return None).
Proof.
  intros p. pose proof (tabs_exclusive evs) as Ht. fold p in Ht.
  split; [exact Ht |]. rewrite getUploadedFile_run, getInputText_run.
  unfold activeFile, activeText, onFileTab, onTextTab in *.
  destruct (contains (textInput (panes p)) "hidden");
    destruct (contains (fileInput (panes p)) "hidden"); try discriminate Ht; by split.
Qed.

(** X11: in every session a click sends what the shown tab holds: on the
    text tab the trimmed text if it is not empty, and nothing otherwise,
    even with a file uploaded; on the file tab the uploaded file if there
    is one, and nothing otherwise, whatever was typed. *)
Theorem request_follows_tab evs net :
  let p := state (run evs initialPage) in
  requests (effects (handleSummarize net p)) =
    if onTextTab p then
      match trim (inputText p) with
      | EmptyString => []
      | text => [textRequest text (optionsOf p)]
      end
    else
      match uploadedFile (upload p) with
      | Some f => [fileRequest f (optionsOf p)]
      | None => []
      end.
Proof.
  intros p. pose proof (tabs_exclusive evs) as Ht. fold p in Ht.
  rewrite requests_handleSummarize. unfold requestOf, activeText, activeFile.
  unfold onFileTab, onTextTab in *.
  destruct (contains (textInput (panes p)) "hidden");
    destruct (contains (fileInput (panes p)) "hidden"); try discriminate Ht; cbn.
  - by destruct (uploadedFile (upload p)).
  - by destruct (trim (inputText p)).
Qed.


(** X12: a file within the size bound and with an accepted extension,
    once selected, is named in the file line, which is shown, and after
    a switch to the file tab a click sends exactly the request for that
    file with the options of the form. *)
Theorem accepted_file_is_sent net f p :
  (size f <= maxSize)%N ->
  acceptedType (name f) ->
  let p1 := state (handleFileSelection f p) in
  let p2 := state (switchTab "file-input" p1) in
  requests (effects (handleSummarize net p2)) = [fileRequest f (optionsOf p)] /\
  fileName (upload p1) = name f /\
  contains (fileInfo (upload p1)) "hidden" = false.
Proof.
  intros Hsize Htype p1 p2. subst p1 p2.
  apply type_check_iff in Htype.
  rewrite handleFileSelection_run.
  destruct (N.ltb_spec maxSize (size f)); [lia |]. rewrite Htype.
  split_and!; [| reflexivity | step_handlers; apply contains_false; set_solver].
  rewrite requests_handleSummarize. unfold requestOf, activeText, activeFile.
  step_handlers. rewrite !showPane_hidden. reflexivity.
Qed.

(** X13: after the remove button, no file is uploaded, the file line is
    hidden, and a click on the file tab sends nothing and asks for an
    input. *)
Theorem removed_file_not_sent net p :
  let p1 := state (removeFile p) in
  let p2 := state (switchTab "file-input" p1) in
  uploadedFile (upload p1) = None /\
  contains (fileInfo (upload p1)) "hidden" = true /\
  effects (handleSummarize net p2) =
    [Alert "Please enter text or upload a file to summarize."].
Proof.
  cbv zeta. split_and!; [reflexivity | step_handlers; apply contains_true; set_solver |].
  rewrite handleSummarize_run. unfold requestOf, activeText, activeFile.
  step_handlers. rewrite !showPane_hidden. reflexivity.
Qed.

Lemma label_handle ev p :
  pageOk p /\ ratioValue (controls p) = decimal (position p) ++ "%" ->
  pageOk (state (handle ev p)) /\
  ratioValue (controls (state (handle ev p))) = decimal (position (state (handle ev p))) ++ "%".
Proof.
  intros [Hok Hl]. split; [by apply handle_ok |].
  unfold position in *.
  destruct ev as [s | i | i | v | t | f | | net]; try exact Hl.
  - reflexivity.
  - cbn [handle]. destruct (handleFileSelection_frame f p) as (_ & _ & -> & _). exact Hl.
  - cbn [handle]. destruct (handleSummarize_frame net p) as (_ & _ & _ & ->). exact Hl.
Qed.

(** X14: in every session the slider stays between 10 and 50, the label
    next to it shows its position followed by a percent sign, and the
    ratio of the options is that percentage. *)
Theorem slider_label_matches evs :
  let p := state (run evs initialPage) in
  10 <= position p <= 50 /\
  ratioValue (controls p) = decimal (position p) ++ "%" /\
  exists q, Options.ratio (optionsOf p) = Num q /\ (q * 100 == inject_Z (position p))%Q.
Proof.
  intros p.
  assert (H : pageOk p /\ ratioValue (controls p) = decimal (position p) ++ "%").
  { apply (run_invariant (fun p => pageOk p /\
             ratioValue (controls p) = decimal (position p) ++ "%")).
    - apply label_handle.
    - split; [apply initialPage_ok | reflexivity]. }
  destruct H as [[Hc _] Hl].
  assert (Hv : 10 <= position p <= 50).
  { destruct Hc as [_ _ _ _ Hmin Hmax [Hlo Hhi]]. unfold position. lia. }
  split_and!; [lia | lia | exact Hl |].
  destruct (optionsOf_ratio p Hv) as (q & Hq & Heq & _).
  exists q. split; [exact Hq |]. rewrite Heq. unfold Qeq. simpl. lia.
Qed.

(** X15: from any page, a session sends at most one request per click on
    the button: no other event sends one. *)
Theorem requests_bounded_by_clicks evs p :
  (length (requests (effects (run evs p))) <= clicks evs)%nat.
Proof.
  revert p. induction evs as [| ev rest IH]; intros p; [done |].
  destruct (run_cons ev rest p) as [_ ->].
  rewrite requests_app, length_app, requests_handle.
  specialize (IH (state (handle ev p))).
  destruct ev; cbn [clicks length]; try lia.
  destruct (requestOf p); cbn [length]; lia.
Qed.

(** X16: after a click answered by an ok response, the download button
    saves the summary of the result as summary.txt of type text/plain,
    and does nothing if that summary is empty. *)
Theorem download_saves_summary net p req resp r :
  In req (requests (effects (handleSummarize net p))) ->
  net req = Responded resp ->
  ok resp = true ->
  jsonBody resp = Return r ->
  downloadSummary (state (handleSummarize net p)) =
    if String.eqb (summary r) "" then None
    else Some {| download := "summary.txt"; type := "text/plain"; content := summary r |}.
Proof.
  intros Hin Hnet Hok Hjson.
  rewrite requests_handleSummarize in Hin. rewrite handleSummarize_run.
  destruct (requestOf p) as [req' |]; [| destruct Hin].
  destruct Hin as [<- | []].
  unfold settled. rewrite Hnet, Hok, Hjson.
  unfold downloadSummary. step_handlers. cbn.
  by destruct (String.eqb (summary r) "").
Qed.


Lemma showPane_last id a b (cl : gset string) :
  showPane id a (showPane id b cl) = showPane id a cl.
Proof.
  unfold showPane.
  destruct (String.eqb id a), (String.eqb id b); apply set_eq; intros x;
    destruct (decide (x = "hidden")), (decide (x = "active")); set_solver.
Qed.

Lemma styleTab_last a b t : Tabs.styleTab a (Tabs.styleTab b t) = Tabs.styleTab a t.
Proof.
  unfold Tabs.styleTab.
  destruct (String.eqb (Tabs.dataTab t) b) eqn:Hb; cbn [Tabs.dataTab];
    destruct (String.eqb (Tabs.dataTab t) a); cbn [Tabs.classList]; f_equal;
    apply set_eq; intros x;
    destruct (decide (x ∈ Tabs.activeStyle)), (decide (x ∈ Tabs.idleStyle)); set_solver.
Qed.

(** X17: after switchTab, a tab button is marked aria-selected exactly
    when the pane it names is the one shown; the selected button carries
    the active style and none of the idle style, the other button the
    idle style and none of the active one. *)
Theorem tab_buttons_follow_pane tabId tabs p b :
  b ∈ (Tabs.switchTab tabId tabs p).1 ->
  Tabs.dataTab b = "text-input" \/ Tabs.dataTab b = "file-input" ->
  let p' := (Tabs.switchTab tabId tabs p).2 in
  (Tabs.ariaSelected b = "true" <-> Tabs.paneShown (Tabs.dataTab b) p' = true) /\
  (Tabs.ariaSelected b = "true" \/ Tabs.ariaSelected b = "false") /\
  (Tabs.ariaSelected b = "true" ->
     Tabs.activeStyle ⊆ Tabs.classList b /\ Tabs.classList b ## Tabs.idleStyle) /\
  (Tabs.ariaSelected b = "false" ->
     Tabs.idleStyle ⊆ Tabs.classList b /\ Tabs.classList b ## Tabs.activeStyle).
Proof.
  intros Hb Hid p'. subst p'. unfold Tabs.switchTab in *. cbn [fst snd] in *.
  apply list_elem_of_fmap in Hb as (t & -> & _).
  assert (Hshown : Tabs.paneShown (Tabs.dataTab (Tabs.styleTab tabId t))
                     (state (switchTab tabId p)) =
                   String.eqb (Tabs.dataTab t) tabId).
  { assert (Hd : Tabs.dataTab (Tabs.styleTab tabId t) = Tabs.dataTab t).
    { unfold Tabs.styleTab. by destruct (String.eqb _ _). }
    rewrite Hd in *. unfold Tabs.paneShown. step_handlers.
    destruct Hid as [-> | ->]; cbn [String.eqb Ascii.eqb Bool.eqb];
      rewrite showPane_hidden, negb_involutive; reflexivity. }
  rewrite Hshown. unfold Tabs.styleTab.
  assert (Hdisj : Tabs.activeStyle ## Tabs.idleStyle).
  { unfold Tabs.activeStyle, Tabs.idleStyle. set_solver. }
  destruct (String.eqb (Tabs.dataTab t) tabId); cbn [Tabs.ariaSelected Tabs.classList].
  - split_and!; [done | by left | intros _; set_solver | discriminate].
  - split_and!; [done | by right | discriminate | intros _; set_solver].
Qed.

(** X18: switching tabs depends on the last tab only: switchTab after
    another switchTab leaves the buttons and the page as switchTab alone
    does. *)
Theorem switchTab_last_wins a b tabs p :
  let after := Tabs.switchTab b tabs p in
  Tabs.switchTab a after.1 after.2 = Tabs.switchTab a tabs p.
Proof.
  cbv zeta. unfold Tabs.switchTab. cbn [fst snd]. f_equal.
  - rewrite <- list_fmap_compose. apply list_fmap_ext. intros _ t _. apply styleTab_last.
  - step_handlers. unfold set_panes. cbn. by rewrite !showPane_last.
Qed.

Lemma tab_buttons_follow_pane_witness :
  let b := Tabs.styleTab "file-input" Tabs.fileTabButton in
  let p' := (Tabs.switchTab "file-input" Tabs.initialTabs initialPage).2 in
  (Tabs.ariaSelected b = "true" <-> Tabs.paneShown (Tabs.dataTab b) p' = true) /\
  (Tabs.ariaSelected b = "true" \/ Tabs.ariaSelected b = "false") /\
  (Tabs.ariaSelected b = "true" ->
     Tabs.activeStyle ⊆ Tabs.classList b /\ Tabs.classList b ## Tabs.idleStyle) /\
  (Tabs.ariaSelected b = "false" ->
     Tabs.idleStyle ⊆ Tabs.classList b /\ Tabs.classList b ## Tabs.activeStyle).
Proof.
  apply (tab_buttons_follow_pane "file-input" Tabs.initialTabs initialPage
           (Tabs.styleTab "file-input" Tabs.fileTabButton)).
  - apply list_elem_of_In. right. left. reflexivity.
  - right. reflexivity.
Defined.

Lemma any_failure_reported_witness :
  let req := textRequest sampleText (optionsOf samplePage) in
  let out := handleSummarize offlineNetwork samplePage in
  effects out = [Fetch req; Alert "Error: Failed to fetch"] /\
  loadingHidden (state out) = true /\
  results (state out) = results samplePage.
Proof.
  apply (any_failure_reported offlineNetwork samplePage
           (textRequest sampleText (optionsOf samplePage))
           {| message := "Failed to fetch" |}).
  - vm_compute. left. reflexivity.
  - left. reflexivity.
Defined.

Lemma accepted_file_is_sent_witness :
  let p1 := state (handleFileSelection smallFile initialPage) in
  let p2 := state (switchTab "file-input" p1) in
  requests (effects (handleSummarize sampleNetwork p2)) =
    [fileRequest smallFile (optionsOf initialPage)] /\
  fileName (upload p1) = name smallFile /\
  contains (fileInfo (upload p1)) "hidden" = false.
Proof.
  apply (accepted_file_is_sent sampleNetwork smallFile initialPage).
  - vm_compute. discriminate.
  - exists ".PDF", ".pdf". split_and!;
      [by exists "Report.2024", "PDF" | simpl; tauto | reflexivity].
Defined.

Lemma download_saves_summary_witness :
  downloadSummary (state (handleSummarize sampleNetwork samplePage)) =
    if String.eqb (summary sampleResult) "" then None
    else Some {| download := "summary.txt"; type := "text/plain";
                 content := summary sampleResult |}.
Proof.
  apply (download_saves_summary sampleNetwork samplePage
           (textRequest sampleText (optionsOf samplePage))
           {| status := 200; jsonBody := Return sampleResult |} sampleResult).
  - vm_compute. left. reflexivity.
  - reflexivity.
  - reflexivity.
  - reflexivity.
Defined.

End ClientMore.

(** ** Built-in functions as the client uses them *)

Section Builtins.
Import Js Http Eff UIController Observe Session Digits.



Lemma firstChar_trimEnd s c :
  firstChar s = Some c -> isWhiteSpace c = false -> firstChar (trimEnd s) = Some c.
Proof.
  destruct s as [| x r]; [done |]. intros [= ->] Hc. simpl.
  destruct (trimEnd r); [by rewrite Hc | done].
Qed.



Lemma length_append_s (a b : string) :
  String.length (a ++ b) = (String.length a + String.length b)%nat.
Proof.
  induction a as [| x a IH]; [done |].
  change (S (String.length (a ++ b)) = S (String.length a + String.length b)).
  by rewrite IH.
Qed.

Lemma length_zeros n : String.length (zeros n) = n.
Proof. induction n as [| n IH]; [done |]. simpl. by rewrite IH. Qed.

Lemma length_drop n s : String.length (Js.drop n s) = (String.length s - n)%nat.
Proof.
  revert s. induction n as [| n IH]; intros s; [simpl; lia |].
  destruct s as [| x r]; [done |]. simpl. apply IH.
Qed.

Lemma length_take n s : String.length (Js.take n s) = Nat.min n (String.length s).
Proof.
  revert s. induction n as [| n IH]; intros s; [done |].
  destruct s as [| x r]; [done |]. simpl. by rewrite IH.
Qed.

Lemma allDigits_append a b : allDigits (a ++ b) = allDigits a && allDigits b.
Proof.
  induction a as [| x a IH]; [done |].
  change (isDigit x && allDigits (a ++ b) = isDigit x && allDigits a && allDigits b).
  by rewrite IH, andb_assoc.
Qed.

Lemma append_assoc_s (a b c : string) : (a ++ b) ++ c = a ++ b ++ c.
Proof.
  induction a as [| x a IH]; [done |].
  change (String x ((a ++ b) ++ c) = String x (a ++ b ++ c)). by rewrite IH.
Qed.

Lemma allDigits_zeros n : allDigits (zeros n) = true.
Proof. induction n as [| n IH]; [done | exact IH]. Qed.

Lemma allDigits_uint d : allDigits (NilEmpty.string_of_uint d) = true.
Proof. induction d; [done | ..]; exact IHd. Qed.

Lemma allDigits_decimal n : 0 <= n -> allDigits (decimal n) = true.
Proof.
  intros Hn. unfold decimal. destruct n as [| p | p]; [done | | lia].
  cbn [Z.to_int NilZero.string_of_int NilZero.string_of_uint].
  pose proof (allDigits_uint (Pos.to_uint p)) as H.
  destruct (Pos.to_uint p); [done | ..]; exact H.
Qed.

Lemma allDigits_take n s : allDigits s = true -> allDigits (Js.take n s) = true.
Proof.
  revert s. induction n as [| n IH]; intros s; [done |].
  destruct s as [| x r]; [done |]. cbn. intros [-> Hr]%andb_true_iff. by apply IH.
Qed.

Lemma allDigits_drop n s : allDigits s = true -> allDigits (Js.drop n s) = true.
Proof.
  revert s. induction n as [| n IH]; intros s; [done |].
  destruct s as [| x r]; [done |]. cbn. intros [_ Hr]%andb_true_iff. by apply IH.
Qed.

Lemma length_decimal_small n :
  0 <= n <= 1000 -> (String.length (decimal n) <= 4)%nat.
Proof.
  intros Hn.
  assert (H : forallb (fun i => String.length (decimal (Z.of_nat i)) <=? 4)%nat
                (seq 0 1001) = true) by (vm_compute; reflexivity).
  rewrite forallb_forall in H. specialize (H (Z.to_nat n)).
  rewrite Z2Nat.id in H by lia. apply Nat.leb_le, H, in_seq. lia.
Qed.

(** X21: for a compression ratio between 0 and 1, displayResults shows a
    percentage without a sign: one to three digits, a point, one digit
    and the percent sign. *)
Theorem percentage_format r p :
  (0 <= compression_ratio r)%Q ->
  (compression_ratio r <= 1)%Q ->
  let shown := results (state (displayResults r p)) in
  exists whole fraction,
    compressionRatio shown = whole ++ "." ++ fraction ++ "%" /\
    allDigits whole = true /\ (1 <= String.length whole <= 3)%nat /\
    allDigits fraction = true /\ String.length fraction = 1%nat.
Proof.
  intros Hlo Hhi shown. subst shown.
  change (compressionRatio (results (state (displayResults r p))))
    with (toFixed (compression_ratio r * 100) 1 ++ "%").
  set (x := (compression_ratio r * 100)%Q).
  assert (Hx : (0 <= x)%Q /\ (x <= 100)%Q) by (unfold x; split; lra).
  unfold toFixed. cbn [Nat.eqb].
  assert (Hsign : Qle_bool 0 x = true) by (apply Qle_bool_iff; tauto).
  rewrite Hsign.
  set (n := Qfloor _).
  assert (Hn : 0 <= n <= 1000).
  { unfold n. rewrite (Qabs_pos x) by tauto.
    change (inject_Z (10 ^ Z.of_nat 1)) with 10%Q. split.
    - change 0 with (Qfloor 0). apply Qfloor_resp_le. lra.
    - change 1000 with (Qfloor (1000 + (1 # 2))). apply Qfloor_resp_le. lra. }
  set (m := zeros _ ++ decimal n).
  assert (Hd : allDigits m = true).
  { unfold m. rewrite allDigits_append, allDigits_zeros, allDigits_decimal; [done | lia]. }
  assert (Hm : (2 <= String.length m <= 4)%nat).
  { unfold m. rewrite length_append_s, length_zeros.
    pose proof (length_decimal_small n Hn). lia. }
  exists (Js.take (String.length m - 1) m), (Js.drop (String.length m - 1) m).
  split_and!.
  - by rewrite <- !append_assoc_s.
  - by apply allDigits_take.
  - rewrite length_take. lia.
  - rewrite length_take. lia.
  - by apply allDigits_drop.
  - rewrite length_drop. lia.
Qed.

Lemma percentage_format_witness :
  let shown := results (state (displayResults sampleResult samplePage)) in
  exists whole fraction,
    compressionRatio shown = whole ++ "." ++ fraction ++ "%" /\
    allDigits whole = true /\ (1 <= String.length whole <= 3)%nat /\
    allDigits fraction = true /\ String.length fraction = 1%nat.
Proof.
  apply (percentage_format sampleResult samplePage); vm_compute; discriminate.
Defined.

Example trim_examples :
  trim "  two words  " = "two words" /\ trim "" = "" /\ trim "x" = "x".
Proof. vm_compute. repeat split. Qed.

End Builtins.
